(** * NAT checker: detection and classification pipeline

    A shallow embedding of the TypeScript sources of the NAT type checker:
    the shared types ([lib/nat-detection/types.ts]), the classifier
    ([nat-classifier.ts]), the WebRTC probe and mapping analyzer
    ([webrtc-detector.ts]), the advanced-test route
    ([app/api/nat-detect/advanced/route.ts]), the advanced client
    ([advanced-detector.ts]), the detection hook and the STUN test server
    ([stun-server.ts]).

    Conventions.  A JavaScript [number] that the code only uses as an
    integer is a [Z]; [null]/[undefined] is [None]; a [Buffer] is a list of
    bytes, each a [Z] in [0, 256); a thrown exception is [None] (or an
    explicit error constructor); [console.*] calls are dropped. *)

From Stdlib Require Import ZArith String Ascii List Lia Bool.
From stdpp Require Import base option list gmap strings pretty.
Import ListNotations.

Local Open Scope string_scope.
Local Open Scope list_scope.
Local Open Scope Z_scope.

(* ===================================================================== *)
(** ** JavaScript values used by the sources *)
(* ===================================================================== *)

Module JS.

(** Truthiness of [string | null | undefined]: the empty string and the
    missing value are falsy. *)
Definition truthyStr (s : option string) : bool :=
  match s with
  | Some EmptyString => false
  | Some _ => true
  | None => false
  end.

(** Truthiness of [number | null | undefined] for integer values: [0] and
    the missing value are falsy. *)
Definition truthyNum (n : option Z) : bool :=
  match n with
  | Some 0 => false
  | Some _ => true
  | None => false
  end.

(** [a || b] on optional strings. *)
Definition orStr (a b : option string) : option string :=
  if truthyStr a then a else b.

(** [n || null] on optional numbers. *)
Definition orNull (n : option Z) : option Z :=
  if truthyNum n then n else None.

(** [ToInt32]: reduction modulo 2^32 into the signed range. *)
Definition toInt32 (z : Z) : Z :=
  let m := z mod 2 ^ 32 in
  if m <? 2 ^ 31 then m else m - 2 ^ 32.

(** The bitwise operators work on the [ToInt32] images of the operands
    and give an int32. *)
Definition xor (a b : Z) : Z := toInt32 (Z.lxor (toInt32 a) (toInt32 b)).
Definition and (a b : Z) : Z := toInt32 (Z.land (toInt32 a) (toInt32 b)).
(** [a >> n]: sign-propagating shift, count taken modulo 32. *)
Definition sar (a n : Z) : Z := Z.shiftr (toInt32 a) (n mod 32).

(** [s.split(sep)] for a one-character separator: always at least one
    part; splitting the empty string gives one empty part. *)
Fixpoint split (sep : ascii) (s : string) : list string :=
  match s with
  | EmptyString => [EmptyString]
  | String c s' =>
      if Ascii.eqb c sep then EmptyString :: split sep s'
      else match split sep s' with
           | p :: ps => String c p :: ps
           | [] => [String c EmptyString]
           end
  end.

Definition isDigit (c : ascii) : bool :=
  let n := N_of_ascii c in ((48 <=? n) && (n <=? 57))%N.

Fixpoint digitsValue (acc : Z) (s : string) : option Z :=
  match s with
  | EmptyString => Some acc
  | String c s' =>
      if isDigit c
      then digitsValue (10 * acc + (Z.of_N (N_of_ascii c) - 48)) s'
      else None
  end.

(** [Number(s)] on the strings that make up a dotted quad: the empty
    string is [0] and a string of decimal digits is its value.  Every
    other string is [NaN], written [None].  (JavaScript also reads signs,
    blanks, fractions, exponents and radix prefixes; none of them occurs
    in the textual IPv4 addresses the sockets and the ICE agent hand
    over, and the theorems below are stated for dotted quads.) *)
Definition Number (s : string) : option Z := digitsValue 0 s.

(** [l.some(Number.isNaN)] *)
Definition someNaN (l : list (option Z)) : bool :=
  existsb (fun o => match o with None => true | Some _ => false end) l.

(** [s.endsWith(suffix)] *)
Definition endsWith (suffix s : string) : bool :=
  let n := String.length s in
  let m := String.length suffix in
  if (m <=? n)%nat then String.eqb (substring (n - m) m s) suffix else false.

(** [s.includes(sub)] *)
Definition includes (sub s : string) : bool :=
  match index 0 sub s with
  | Some _ => true
  | None => false
  end.

End JS.

(* ===================================================================== *)
(** ** types.ts *)
(* ===================================================================== *)

Inductive NATType : Type :=
| CONE_NAT
| FULL_CONE
| RESTRICTED_CONE
| PORT_RESTRICTED_CONE
| SYMMETRIC
| NO_NAT
| MULTIPLE_LAYERS.

Inductive DetectionState : Type := IDLE | DETECTING | SUCCESS | ERROR.

Inductive DetectionError : Type :=
| STUN_UNREACHABLE
| BROWSER_UNSUPPORTED
| PERMISSION_DENIED
| TIMEOUT
| UNKNOWN.

Inductive DetectionConfidence : Type := high | low.

Inductive DetectionMethod : Type := basic | advanced.

Record IPAddressInfo : Type := mkIPAddressInfo {
  localIP : string;
  publicIP : option string;
  publicPort : option Z;
  isBehindLocalNAT : bool;
  isBehindCGNAT : bool
}.

(** One entry of [observedMappings]: [{ ip: string; port: number }]. *)
Record Mapping : Type := mkMapping {
  ip : string;
  port : Z
}.

Record PortMappingInfo : Type := mkPortMappingInfo {
  isPortConsistent : bool;
  isIPConsistent : bool;
  observedMappings : list Mapping
}.

(** [ip.split(".").map(Number)] *)
Definition octetsOf (addr : string) : list (option Z) :=
  map JS.Number (JS.split "." addr).

(** RFC 1918 private ranges. *)
Definition isPrivateIP (addr : string) : bool :=
  let octets := octetsOf addr in
  if negb (length octets =? 4)%nat || JS.someNaN octets then false
  else match octets with
       | Some o0 :: Some o1 :: _ =>
           if o0 =? 10 then true
           else if (o0 =? 172) && (16 <=? o1) && (o1 <=? 31) then true
           else if (o0 =? 192) && (o1 =? 168) then true
           else false
       | _ => false
       end.

(** RFC 6598 carrier-grade NAT range. *)
Definition isCGNATIP (addr : string) : bool :=
  let octets := octetsOf addr in
  if negb (length octets =? 4)%nat || JS.someNaN octets then false
  else match octets with
       | Some o0 :: Some o1 :: _ =>
           if (o0 =? 100) && (64 <=? o1) && (o1 <=? 127) then true
           else false
       | _ => false
       end.

(* ===================================================================== *)
(** ** nat-classifier.ts *)
(* ===================================================================== *)

Definition classifyNAT (ipInfo : IPAddressInfo) (portMapping : PortMappingInfo)
  : NATType :=
  if isBehindLocalNAT ipInfo && isBehindCGNAT ipInfo then MULTIPLE_LAYERS
  else if negb (isBehindLocalNAT ipInfo) && negb (isBehindCGNAT ipInfo)
  then NO_NAT
  else if negb (isPortConsistent portMapping)
          || negb (isIPConsistent portMapping)
  then SYMMETRIC
  else if isIPConsistent portMapping && isPortConsistent portMapping
  then CONE_NAT
  else SYMMETRIC.

(* ===================================================================== *)
(** ** webrtc-detector.ts: ICE candidates and their analysis *)
(* ===================================================================== *)

(** What a callback or a promise gives back: a value, or a thrown
    [Error] with its message. *)
Inductive Try (A : Type) : Type :=
| Return (a : A)
| Throw (message : string).
Arguments Return {A} a.
Arguments Throw {A} message.

Module ICE.

Inductive RTCIceCandidateType : Type := host | srflx | prflx | relay.

(** The fields of [RTCIceCandidate] the detector reads, with the
    non-standard [ip] of [ExtendedRTCIceCandidate]. *)
Record RTCIceCandidate : Type := mkCandidate {
  candidate : string;
  type : option RTCIceCandidateType;
  address : option string;
  ip : option string;
  port : option Z
}.

Definition isType (t : RTCIceCandidateType) (c : RTCIceCandidate) : bool :=
  match type c, t with
  | Some host, host | Some srflx, srflx
  | Some prflx, prflx | Some relay, relay => true
  | _, _ => false
  end.

End ICE.

Import ICE (RTCIceCandidate).

(** The test [/^[\d.]+$/]. *)
Fixpoint allDigitsOrDots (s : string) : bool :=
  match s with
  | EmptyString => true
  | String c s' => (JS.isDigit c || Ascii.eqb c ".") && allDigitsOrDots s'
  end.

Definition matchesIPFormat (s : string) : bool :=
  match s with
  | EmptyString => false
  | _ => allDigitsOrDots s
  end.

Definition extractIPFromCandidate (c : RTCIceCandidate) : option string :=
  let candidateStr := ICE.candidate c in
  if negb (JS.truthyStr (Some candidateStr)) then None
  else
    let parts := JS.split " " candidateStr in
    if (length parts <? 5)%nat then None
    else
      match nth_error parts 4 with
      | Some ip =>
          if matchesIPFormat ip then Some ip
          else JS.orStr (ICE.address c) (JS.orStr (ICE.ip c) None)
      | None => JS.orStr (ICE.address c) (JS.orStr (ICE.ip c) None)
      end.

Definition extractIPInfo (candidates : list RTCIceCandidate)
  : Try IPAddressInfo :=
  let hostCandidate := List.find (ICE.isType ICE.host) candidates in
  let srflxCandidate := List.find (ICE.isType ICE.srflx) candidates in
  match hostCandidate with
  | None => Throw "No host candidate found"
  | Some hostCandidate =>
      let localIP :=
        match JS.orStr (extractIPFromCandidate hostCandidate)
                (JS.orStr (ICE.address hostCandidate)
                   (JS.orStr (ICE.ip hostCandidate) (Some EmptyString))) with
        | Some s => s
        | None => EmptyString
        end in
      let publicIP :=
        match srflxCandidate with
        | Some srflxCandidate =>
            JS.orStr (extractIPFromCandidate srflxCandidate)
              (JS.orStr (ICE.address srflxCandidate)
                 (JS.orStr (ICE.ip srflxCandidate) None))
        | None => None
        end in
      let publicPort :=
        match srflxCandidate with
        | Some srflxCandidate => JS.orNull (ICE.port srflxCandidate)
        | None => None
        end in
      let isMDNS := JS.endsWith ".local" localIP in
      let isBehindLocalNAT := isMDNS || isPrivateIP localIP in
      let isBehindCGNAT :=
        match publicIP with
        | Some p => if JS.truthyStr publicIP then isCGNATIP p else false
        | None => false
        end in
      Return {| localIP := localIP;
                publicIP := publicIP;
                publicPort := publicPort;
                isBehindLocalNAT := isBehindLocalNAT;
                isBehindCGNAT := isBehindCGNAT |}
  end.

(** The callback of [srflxCandidates.map]: the mapping of one candidate,
    or [null] when the address is empty or missing or the port is zero
    or missing. *)
Definition toMapping (c : RTCIceCandidate) : option Mapping :=
  let ip := JS.orStr (ICE.address c) (ICE.ip c) in
  let port := ICE.port c in
  if negb (JS.truthyStr ip) || negb (JS.truthyNum port) then None
  else match ip, port with
       | Some ip, Some port => Some {| ip := ip; port := port |}
       | _, _ => None
       end.

Definition analyzePortMapping (candidates : list RTCIceCandidate)
  : PortMappingInfo :=
  let srflxCandidates := List.filter (ICE.isType ICE.srflx) candidates in
  (* [.map(...).filter(m => m !== null)] *)
  let mappings := omap toMapping srflxCandidates in
  if (length mappings =? 0)%nat then
    {| isPortConsistent := false;
       isIPConsistent := false;
       observedMappings := [] |}
  else
    let uniqueIPs : gset string := list_to_set (map ip mappings) in
    let uniquePorts : gset Z := list_to_set (map port mappings) in
    if (length mappings =? 1)%nat then
      {| isPortConsistent := true;
         isIPConsistent := true;
         observedMappings := mappings |}
    else
      let isPortConsistent := (size uniquePorts <=? 1)%nat in
      let isIPConsistent := (size uniqueIPs <=? 1)%nat in
      {| isPortConsistent := isPortConsistent;
         isIPConsistent := isIPConsistent;
         observedMappings := mappings |}.

(** The confidence computed in [finishGathering] from the analyzed
    mappings. *)
Definition confidenceOf (portMapping : PortMappingInfo) : DetectionConfidence :=
  let srflxCount := length (observedMappings portMapping) in
  if (2 <=? srflxCount)%nat then high else low.

Definition confidenceReasonOf (portMapping : PortMappingInfo) : string :=
  let srflxCount := length (observedMappings portMapping) in
  if (2 <=? srflxCount)%nat
  then "High confidence: " +:+ pretty srflxCount +:+ " STUN servers responded"
  else "Low confidence: Only " +:+ pretty srflxCount
       +:+ " STUN server responded (cannot verify port consistency)".

(* ===================================================================== *)
(** ** webrtc-detector.ts: the probe *)
(* ===================================================================== *)

Definition TOTAL_TIMEOUT : Z := 15000.

(** What [detectWithMultipleServers] resolves with. *)
Record ProbeResult : Type := mkProbeResult {
  pr_ipInfo : IPAddressInfo;
  pr_portMapping : PortMappingInfo;
  pr_successfulServers : list string;
  pr_confidence : DetectionConfidence;
  pr_confidenceReason : string
}.

Module Probe.

Inductive RTCIceGatheringState : Type := new | gathering | complete.

(** The callbacks the run loop can enter, one per event: the two
    handlers installed on the connection, the two kinds of timer, and
    the failure of the asynchronous set-up block
    ([createDataChannel], [createOffer], [setLocalDescription]). *)
Inductive Event : Type :=
| IceCandidate (c : option RTCIceCandidate)
| GatheringStateChange (s : RTCIceGatheringState)
| WaitElapsed
| CeilingElapsed
| SetupFailed (message : string).

(** The variables closed over by the callbacks.  [timeoutId] holds the
    delay of the ceiling timer while it is armed, [waits] the delays of
    the adaptive timers started so far, and [settled] the outcome of the
    returned promise once [resolve] or [reject] has been called. *)
Record State : Type := mkState {
  candidates : list RTCIceCandidate;
  successfulServers : list string;
  resolved : bool;
  timeoutId : option Z;
  waits : list Z;
  closed : bool;
  settled : option (Try ProbeResult)
}.

Definition start (timeout : Z) : State :=
  {| candidates := [];
     successfulServers := [];
     resolved := false;
     timeoutId := Some timeout;
     waits := [];
     closed := false;
     settled := None |}.

(** [resolve]/[reject] of a promise: only the first call counts. *)
Definition settle (st : State) (r : Try ProbeResult) : State :=
  match settled st with
  | Some _ => st
  | None =>
      {| candidates := candidates st;
         successfulServers := successfulServers st;
         resolved := resolved st;
         timeoutId := timeoutId st;
         waits := waits st;
         closed := closed st;
         settled := Some r |}
  end.

(** [Set.prototype.add] on the insertion-ordered set. *)
Definition setAdd (x : string) (s : list string) : list string :=
  if existsb (String.eqb x) s then s else s ++ [x].

Definition finishGathering (st : State) : State :=
  if resolved st then st
  else
    let st1 :=
      {| candidates := candidates st;
         successfulServers := successfulServers st;
         resolved := true;
         timeoutId := None;          (* clearTimeout(timeoutId) *)
         waits := waits st;
         closed := true;             (* pc.close() *)
         settled := settled st |} in
    match extractIPInfo (candidates st) with
    | Throw message => settle st1 (Throw message)
    | Return ipInfo =>
        let portMapping := analyzePortMapping (candidates st) in
        settle st1
          (Return {| pr_ipInfo := ipInfo;
                     pr_portMapping := portMapping;
                     pr_successfulServers := successfulServers st;
                     pr_confidence := confidenceOf portMapping;
                     pr_confidenceReason := confidenceReasonOf portMapping |})
    end.

(** The adaptive wait chosen after a candidate arrives. *)
Definition waitTime (srflxCount : nat) : Z :=
  if (srflxCount =? 1)%nat then 5000
  else if (srflxCount =? 2)%nat then 2000
  else 1000.

Definition onicecandidate (st : State) (c : option RTCIceCandidate) : State :=
  match c with
  | Some c =>
      let candidates' := candidates st ++ [c] in
      let successfulServers' :=
        if ICE.isType ICE.srflx c
        then setAdd "STUN server (via ICE)" (successfulServers st)
        else successfulServers st in
      let hasHost := existsb (ICE.isType ICE.host) candidates' in
      let srflxCount :=
        length (List.filter (ICE.isType ICE.srflx) candidates') in
      let waits' :=
        if hasHost && (1 <=? srflxCount)%nat
        then waits st ++ [waitTime srflxCount]
        else waits st in
      {| candidates := candidates';
         successfulServers := successfulServers';
         resolved := resolved st;
         timeoutId := timeoutId st;
         waits := waits';
         closed := closed st;
         settled := settled st |}
  | None => finishGathering st
  end.

Definition onicegatheringstatechange (st : State) (s : RTCIceGatheringState)
  : State :=
  match s with
  | complete => finishGathering st
  | _ => st
  end.

(** The callback of the ceiling timer.  A cleared timer does not run. *)
Definition onCeiling (st : State) : State :=
  match timeoutId st with
  | None => st
  | Some _ =>
      if negb (resolved st) then
        settle
          {| candidates := candidates st;
             successfulServers := successfulServers st;
             resolved := resolved st;
             timeoutId := None;
             waits := waits st;
             closed := true;
             settled := settled st |}
          (Throw "Detection timeout")
      else st
  end.

(** The [catch] of the set-up block. *)
Definition onSetupFailed (st : State) (message : string) : State :=
  settle
    {| candidates := candidates st;
       successfulServers := successfulServers st;
       resolved := resolved st;
       timeoutId := None;
       waits := waits st;
       closed := true;
       settled := settled st |}
    (Throw message).

Definition step (st : State) (e : Event) : State :=
  match e with
  | IceCandidate c => onicecandidate st c
  | GatheringStateChange s => onicegatheringstatechange st s
  | WaitElapsed => finishGathering st
  | CeilingElapsed => onCeiling st
  | SetupFailed message => onSetupFailed st message
  end.

Definition run (timeout : Z) (events : list Event) : State :=
  fold_left step events (start timeout).

End Probe.

(** [detectWithMultipleServers(timeout)] against the events the connection
    and the timers deliver: the outcome of the promise, [None] while it is
    still pending after the last event. *)
Definition detectWithMultipleServers (timeout : Z) (events : list Probe.Event)
  : option (Try ProbeResult) :=
  Probe.settled (Probe.run timeout events).

(** What [detectNAT] resolves with. *)
Record BasicResult : Type := mkBasicResult {
  br_ipInfo : IPAddressInfo;
  br_portMapping : PortMappingInfo;
  br_successfulServer : string;
  br_confidence : DetectionConfidence;
  br_confidenceReason : string
}.

(** [arr.join(", ")] *)
Fixpoint join (sep : string) (l : list string) : string :=
  match l with
  | [] => EmptyString
  | [x] => x
  | x :: rest => x +:+ sep +:+ join sep rest
  end.

(** [detectNAT()].  [hasRTCPeerConnection] tells whether
    [typeof RTCPeerConnection] is defined in the environment. *)
Definition detectNAT (hasRTCPeerConnection : bool) (events : list Probe.Event)
  : option (Try BasicResult) :=
  if negb hasRTCPeerConnection then Some (Throw "BROWSER_UNSUPPORTED")
  else
    match detectWithMultipleServers TOTAL_TIMEOUT events with
    | None => None
    | Some (Return result) =>
        Some (Return
          {| br_ipInfo := pr_ipInfo result;
             br_portMapping := pr_portMapping result;
             br_successfulServer :=
               match JS.orStr (Some (join ", " (pr_successfulServers result)))
                       (Some "STUN (via ICE)") with
               | Some s => s
               | None => EmptyString
               end;
             br_confidence := pr_confidence result;
             br_confidenceReason := pr_confidenceReason result |})
    | Some (Throw errorMessage) =>
        if JS.includes "timeout" errorMessage then Some (Throw "TIMEOUT")
        else if JS.includes "No host candidate" errorMessage
        then Some (Throw "STUN_UNREACHABLE")
        else Some (Throw "STUN_UNREACHABLE")
    end.

(* ===================================================================== *)
(** ** app/api/nat-detect/advanced/route.ts *)
(* ===================================================================== *)

Module Route.

(** The parsed JSON body of a [POST]; a missing field is [None]. *)
Record Body : Type := mkBody {
  body_publicIP : option string;
  body_publicPort : option Z;
  body_localIP : option string
}.

(** [AdvancedDetectionRequest] *)
Record AdvancedDetectionRequest : Type := mkRequest {
  req_publicIP : string;
  req_publicPort : Z;
  req_localIP : option string
}.

Record TestResult : Type := mkTest {
  passed : bool;
  description : string
}.

Record Tests : Type := mkTests {
  test1 : TestResult;
  test2 : TestResult;
  test3 : TestResult;
  test4 : TestResult
}.

(** [AdvancedDetectionResponse], also the shape of the error replies,
    which carry [success] and [error] only. *)
Record AdvancedDetectionResponse : Type := mkResponse {
  success : bool;
  natType : option NATType;
  confidence : option DetectionConfidence;
  confidenceReason : option string;
  tests : option Tests;
  error : option string
}.

(** The block "Determine NAT type based on test results" of
    [performAdvancedTests], as a function of the three test records it
    branches on; it gives [natType] and [confidenceReason]. *)
Definition determineNATType (test2 test3 test4 : TestResult)
  : NATType * string :=
  if negb (passed test4) then
    (SYMMETRIC,
     "High confidence: Different external ports observed per destination")
  else if passed test2 then
    (FULL_CONE,
     "High confidence: Received response from different IP:port")
  else if passed test3 then
    (RESTRICTED_CONE,
     "High confidence: Received response from different port on same IP")
  else
    (PORT_RESTRICTED_CONE,
     "High confidence: Did not receive response from different IP:port combination").

(** The three simulated delays of 500 ms are not part of the value. *)
Definition performAdvancedTests (req : AdvancedDetectionRequest)
  : AdvancedDetectionResponse :=
  let test1 :=
    {| passed := true;
       description := "Mapped to " +:+ req_publicIP req +:+ ":"
                      +:+ pretty (req_publicPort req) |} in
  let test2 :=
    {| passed := false;
       description :=
         "Response from different IP:port not received (not Full Cone)" |} in
  let test3 :=
    {| passed := false;
       description :=
         "Response from different port not received (Port-Restricted Cone likely)" |} in
  let test4 :=
    {| passed := true;
       description :=
         "Port mapping consistent across servers (not Symmetric)" |} in
  let '(natType, confidenceReason) := determineNATType test2 test3 test4 in
  {| success := true;
     natType := Some natType;
     confidence := Some high;
     confidenceReason := Some confidenceReason;
     tests := Some {| test1 := test1; test2 := test2;
                      test3 := test3; test4 := test4 |};
     error := None |}.

Definition errorResponse (message : string) : AdvancedDetectionResponse :=
  {| success := false;
     natType := None;
     confidence := None;
     confidenceReason := None;
     tests := None;
     error := Some message |}.

(** [POST(request)]: the HTTP status and the JSON reply.  The argument is
    the outcome of [request.json()]. *)
Definition POST (body : Try Body) : Z * AdvancedDetectionResponse :=
  match body with
  | Throw message => (500, errorResponse message)
  | Return body =>
      if negb (JS.truthyStr (body_publicIP body))
         || negb (JS.truthyNum (body_publicPort body))
      then (400, errorResponse
                   "Missing required fields: publicIP and publicPort")
      else
        match body_publicIP body, body_publicPort body with
        | Some publicIP, Some publicPort =>
            (200, performAdvancedTests
                    {| req_publicIP := publicIP;
                       req_publicPort := publicPort;
                       req_localIP := body_localIP body |})
        | _, _ =>
            (400, errorResponse
                    "Missing required fields: publicIP and publicPort")
        end
  end.

End Route.

(* ===================================================================== *)
(** ** advanced-detector.ts and the detection hook *)
(* ===================================================================== *)

Record DetectionResult : Type := mkDetectionResult {
  state : DetectionState;
  natType : option NATType;
  startedAt : Z;
  completedAt : option Z;
  durationMs : option Z;
  ipInfo : option IPAddressInfo;
  portMapping : option PortMappingInfo;
  error : option (DetectionError * string);
  successfulSTUNServer : option string;
  confidence : option DetectionConfidence;
  confidenceReason : option string;
  detectionMethod : option DetectionMethod
}.

(** What [fetch] resolves with. *)
Record HttpResponse : Type := mkHttpResponse {
  ok : bool;
  status : Z;
  statusText : string;
  json : Route.AdvancedDetectionResponse
}.

(** The network between the client and the route: [fetch] of a [POST]
    with the given body either rejects or resolves with a response. *)
Definition Fetch : Type := Route.Body -> Try HttpResponse.

(** A [fetch] that reaches the route of this repository. *)
Definition routeFetch : Fetch := fun body =>
  let '(status, reply) := Route.POST (Return body) in
  Return {| ok := (200 <=? status) && (status <=? 299);
            status := status;
            statusText := EmptyString;
            json := reply |}.

Definition errorResult (type : DetectionError) (message : string)
    (startedAt completedAt : Z) (method : option DetectionMethod)
  : DetectionResult :=
  {| state := ERROR;
     natType := None;
     startedAt := startedAt;
     completedAt := Some completedAt;
     durationMs := Some (completedAt - startedAt);
     ipInfo := None;
     portMapping := None;
     error := Some (type, message);
     successfulSTUNServer := None;
     confidence := None;
     confidenceReason := None;
     detectionMethod := method |}.

(** The [try] block of [detectNATAdvanced] after the basic detection has
    resolved. *)
Definition advancedAfterBasic (basicResult : BasicResult) (fetch : Fetch)
    (startedAt completedAt : Z) : Try DetectionResult :=
  let info := br_ipInfo basicResult in
  if negb (JS.truthyStr (publicIP info)) || negb (JS.truthyNum (publicPort info))
  then Throw "Failed to get public IP/port from basic detection"
  else
    match fetch {| Route.body_publicIP := publicIP info;
                   Route.body_publicPort := publicPort info;
                   Route.body_localIP := Some (localIP info) |} with
    | Throw message => Throw message
    | Return apiResponse =>
        if negb (ok apiResponse) then
          Throw ("Server API returned " +:+ pretty (status apiResponse)
                 +:+ ": " +:+ statusText apiResponse)
        else
          let advancedData := json apiResponse in
          if negb (Route.success advancedData) then
            Throw (match JS.orStr (Route.error advancedData)
                           (Some "Advanced detection failed on server") with
                   | Some s => s
                   | None => EmptyString
                   end)
          else
            Return
              {| state := SUCCESS;
                 natType := Some (match Route.natType advancedData with
                                  | Some t => t
                                  | None => CONE_NAT
                                  end);
                 startedAt := startedAt;
                 completedAt := Some completedAt;
                 durationMs := Some (completedAt - startedAt);
                 ipInfo := Some (br_ipInfo basicResult);
                 portMapping := Some (br_portMapping basicResult);
                 error := None;
                 successfulSTUNServer := Some "Advanced Detection (RFC 5780)";
                 confidence := Route.confidence advancedData;
                 confidenceReason := Route.confidenceReason advancedData;
                 detectionMethod := Some advanced |}
    end.

(** [detectNATAdvanced()]: [None] while the basic detection is pending.
    [startedAt] and [completedAt] are the two readings of the clock. *)
Definition detectNATAdvanced (hasRTCPeerConnection : bool)
    (events : list Probe.Event) (fetch : Fetch) (startedAt completedAt : Z)
  : option DetectionResult :=
  match detectNAT hasRTCPeerConnection events with
  | None => None
  | Some (Throw message) =>
      Some (errorResult UNKNOWN message startedAt completedAt (Some advanced))
  | Some (Return basicResult) =>
      match advancedAfterBasic basicResult fetch startedAt completedAt with
      | Return result => Some result
      | Throw message =>
          Some (errorResult UNKNOWN message startedAt completedAt
                  (Some advanced))
      end
  end.

(** The mapping of a raw error message to [DetectionError] in the [catch]
    of [runDetection]. *)
Definition errorTypeOf (rawErrorMessage : string) : DetectionError :=
  if String.eqb rawErrorMessage "TIMEOUT"
     || JS.includes "timeout" rawErrorMessage then TIMEOUT
  else if String.eqb rawErrorMessage "STUN_UNREACHABLE"
          || JS.includes "failed" rawErrorMessage then STUN_UNREACHABLE
  else if JS.includes "unsupported" rawErrorMessage
          || JS.includes "RTCPeerConnection" rawErrorMessage
  then BROWSER_UNSUPPORTED
  else if JS.includes "permission" rawErrorMessage then PERMISSION_DENIED
  else UNKNOWN.

(** [runDetection] of [useNATDetection]: the result it stores once the
    awaited detection has settled, [None] while it is pending (the stored
    state is then still [DETECTING]). *)
Definition runDetection (isAdvancedAvailable hasRTCPeerConnection : bool)
    (events : list Probe.Event) (fetch : Fetch) (startedAt completedAt : Z)
  : option DetectionResult :=
  if isAdvancedAvailable then
    detectNATAdvanced hasRTCPeerConnection events fetch startedAt completedAt
  else
    match detectNAT hasRTCPeerConnection events with
    | None => None
    | Some (Return r) =>
        let natType := classifyNAT (br_ipInfo r) (br_portMapping r) in
        Some {| state := SUCCESS;
                natType := Some natType;
                startedAt := startedAt;
                completedAt := Some completedAt;
                durationMs := Some (completedAt - startedAt);
                ipInfo := Some (br_ipInfo r);
                portMapping := Some (br_portMapping r);
                error := None;
                successfulSTUNServer := Some (br_successfulServer r);
                confidence := Some (br_confidence r);
                confidenceReason := Some (br_confidenceReason r);
                detectionMethod := Some basic |}
    | Some (Throw rawErrorMessage) =>
        Some (errorResult (errorTypeOf rawErrorMessage) rawErrorMessage
                startedAt completedAt None)
    end.

(* ===================================================================== *)
(** ** stun-server.ts *)
(* ===================================================================== *)

Module Stun.

Definition PRIMARY : Z := 3478.
Definition SECONDARY : Z := 3479.
Definition TERTIARY : Z := 3480.

Definition BINDING_REQUEST : Z := 0x0001.
Definition BINDING_RESPONSE : Z := 0x0101.

Definition STUN_MAGIC_COOKIE : Z := 0x2112a442.

Definition MAPPED_ADDRESS : Z := 0x0001.
Definition XOR_MAPPED_ADDRESS : Z := 0x0020.
Definition CHANGE_REQUEST : Z := 0x0003.
Definition RESPONSE_ORIGIN : Z := 0x802b.
Definition OTHER_ADDRESS : Z := 0x802c.

(** *** Buffer primitives.  A read outside the buffer and a write of a
    value outside the range of the field throw; both are [None]. *)

Definition readUInt8 (buf : list Z) (offset : nat) : option Z :=
  nth_error buf offset.

Definition readUInt16BE (buf : list Z) (offset : nat) : option Z :=
  match nth_error buf offset, nth_error buf (offset + 1) with
  | Some b0, Some b1 => Some (b0 * 256 + b1)
  | _, _ => None
  end.

Definition readUInt32BE (buf : list Z) (offset : nat) : option Z :=
  match nth_error buf offset, nth_error buf (offset + 1),
        nth_error buf (offset + 2), nth_error buf (offset + 3) with
  | Some b0, Some b1, Some b2, Some b3 =>
      Some (((b0 * 256 + b1) * 256 + b2) * 256 + b3)
  | _, _, _, _ => None
  end.

(** [buf.subarray(start, end)] with [start <= end]: both ends are
    clamped to the buffer. *)
Definition subarray (buf : list Z) (start end_ : nat) : list Z :=
  firstn (end_ - start) (skipn start buf).

(** [Buffer.alloc(n)] *)
Definition alloc (n : nat) : list Z := repeat 0 n.

(** [buf.writeUInt8(value, offset)].  The value is first made a number:
    [undefined] and [NaN], both [None] here, pass the range check and
    are stored as [0]. *)
Definition writeUInt8 (value : option Z) (offset : nat) (buf : list Z)
  : option (list Z) :=
  let v := match value with Some v => v | None => 0 end in
  if (255 <? v) || (v <? 0) then None
  else if (offset <? length buf)%nat then Some (<[offset := v]> buf)
  else None.

(** [buf.writeUInt16BE(value, offset)] *)
Definition writeUInt16BE (value : Z) (offset : nat) (buf : list Z)
  : option (list Z) :=
  if (65535 <? value) || (value <? 0) then None
  else if (offset + 1 <? length buf)%nat then
    Some (<[(offset + 1)%nat := value mod 256]>
            (<[offset := (value / 256) mod 256]> buf))
  else None.

(** [buf.writeUInt32BE(value, offset)] *)
Definition writeUInt32BE (value : Z) (offset : nat) (buf : list Z)
  : option (list Z) :=
  if (4294967295 <? value) || (value <? 0) then None
  else if (offset + 3 <? length buf)%nat then
    Some (<[(offset + 3)%nat := value mod 256]>
         (<[(offset + 2)%nat := (value / 256) mod 256]>
         (<[(offset + 1)%nat := (value / 65536) mod 256]>
         (<[offset := (value / 16777216) mod 256]> buf))))
  else None.

(** [source.copy(target, targetStart)]: as many bytes as fit. *)
Definition copy (source target : list Z) (targetStart : nat) : list Z :=
  let n := Nat.min (length source) (length target - targetStart) in
  firstn targetStart target ++ firstn n source
    ++ skipn (targetStart + n) target.

(** *** Messages *)

Record STUNMessage : Type := mkMessage {
  type : Z;
  length : Z;
  transactionId : list Z;
  attributes : gmap Z (list Z)
}.

(** [Math.ceil(attrLength / 4) * 4] *)
Definition padded (attrLength : nat) : nat := ((attrLength + 3) / 4 * 4)%nat.

(** The [while] loop of [parseSTUNMessage].  Every turn moves [offset]
    forward by at least four bytes, so [fuel] bounds the number of
    turns; [None] is an exception thrown by a read (or no fuel left). *)
Fixpoint parseAttributes (fuel : nat) (buffer : list Z) (length : Z)
    (offset : nat) (attributes : gmap Z (list Z))
  : option (gmap Z (list Z)) :=
  match fuel with
  | O => None
  | S fuel' =>
      if (offset <? List.length buffer)%nat && (Z.of_nat offset <? 20 + length)
      then
        if (List.length buffer <? offset + 4)%nat then Some attributes
        else
          match readUInt16BE buffer offset,
                readUInt16BE buffer (offset + 2) with
          | Some attrType, Some attrLength =>
              let attrValue :=
                subarray buffer (offset + 4)
                  (offset + 4 + Z.to_nat attrLength) in
              parseAttributes fuel' buffer length
                (offset + 4 + padded (Z.to_nat attrLength))
                (<[attrType := attrValue]> attributes)
          | _, _ => None
          end
      else Some attributes
  end.

(** [parseSTUNMessage(buffer)]; [null] is [None]. *)
Definition parseSTUNMessage (buffer : list Z) : option STUNMessage :=
  if (List.length buffer <? 20)%nat then None
  else
    match readUInt16BE buffer 0, readUInt16BE buffer 2,
          readUInt32BE buffer 4 with
    | Some type, Some length, Some magicCookie =>
        let transactionId := subarray buffer 8 20 in
        if negb (magicCookie =? STUN_MAGIC_COOKIE) then None
        else
          match parseAttributes (S (List.length buffer)) buffer length 20 ∅
          with
          | Some attributes =>
              Some {| type := type;
                      length := length;
                      transactionId := transactionId;
                      attributes := attributes |}
          | None => None
          end
    | _, _, _ => None
    end.

Definition magicBytes : list Z :=
  [ JS.and (JS.sar STUN_MAGIC_COOKIE 24) 0xff;
    JS.and (JS.sar STUN_MAGIC_COOKIE 16) 0xff;
    JS.and (JS.sar STUN_MAGIC_COOKIE 8) 0xff;
    JS.and STUN_MAGIC_COOKIE 0xff ].

(** An operand of a bitwise operator that is [NaN] or [undefined]
    counts as [0]. *)
Definition operand (v : option Z) : Z :=
  match v with Some v => v | None => 0 end.

Definition buildXorMappedAddress (addr : string) (port : Z)
    (_transactionId : list Z) : option (list Z) :=
  let attrType := XOR_MAPPED_ADDRESS in
  let family := 0x01 in
  let xorPort := JS.xor port (JS.sar STUN_MAGIC_COOKIE 16) in
  let addrParts := octetsOf addr in
  let xorAddr :=
    imap (fun i byte => JS.xor (operand byte) (operand (magicBytes !! i)))
      addrParts in
  attrValue ← writeUInt8 (Some 0) 0 (alloc 8);
  attrValue ← writeUInt8 (Some family) 1 attrValue;
  attrValue ← writeUInt16BE xorPort 2 attrValue;
  attrValue ← writeUInt8 (xorAddr !! 0%nat) 4 attrValue;
  attrValue ← writeUInt8 (xorAddr !! 1%nat) 5 attrValue;
  attrValue ← writeUInt8 (xorAddr !! 2%nat) 6 attrValue;
  attrValue ← writeUInt8 (xorAddr !! 3%nat) 7 attrValue;
  attr ← writeUInt16BE attrType 0 (alloc (4 + 8));
  attr ← writeUInt16BE 8 2 attr;
  Some (copy attrValue attr 4).

Definition buildResponseOrigin (addr : string) (port : Z)
  : option (list Z) :=
  let attrType := RESPONSE_ORIGIN in
  let family := 0x01 in
  let addrParts := octetsOf addr in
  attrValue ← writeUInt8 (Some 0) 0 (alloc 8);
  attrValue ← writeUInt8 (Some family) 1 attrValue;
  attrValue ← writeUInt16BE port 2 attrValue;
  attrValue ← writeUInt8 (mjoin (addrParts !! 0%nat)) 4 attrValue;
  attrValue ← writeUInt8 (mjoin (addrParts !! 1%nat)) 5 attrValue;
  attrValue ← writeUInt8 (mjoin (addrParts !! 2%nat)) 6 attrValue;
  attrValue ← writeUInt8 (mjoin (addrParts !! 3%nat)) 7 attrValue;
  attr ← writeUInt16BE attrType 0 (alloc (4 + 8));
  attr ← writeUInt16BE 8 2 attr;
  Some (copy attrValue attr 4).

Definition buildSTUNResponse (transactionId : list Z) (clientAddr : string)
    (clientPort : Z) (responseAddr : option string)
    (responsePort : option Z) : option (list Z) :=
  xorMappedAddr ← buildXorMappedAddress clientAddr clientPort transactionId;
  attributes ←
    (if JS.truthyStr responseAddr && JS.truthyNum responsePort then
       match responseAddr, responsePort with
       | Some responseAddr, Some responsePort =>
           responseOrigin ← buildResponseOrigin responseAddr responsePort;
           Some [xorMappedAddr; responseOrigin]
       | _, _ => Some [xorMappedAddr]
       end
     else Some [xorMappedAddr]);
  let totalAttrLength :=
    fold_left (fun sum attr => sum + Z.of_nat (List.length attr))
      attributes 0 in
  header ← writeUInt16BE BINDING_RESPONSE 0 (alloc 20);
  header ← writeUInt16BE totalAttrLength 2 header;
  header ← writeUInt32BE STUN_MAGIC_COOKIE 4 header;
  let header := copy transactionId header 8 in
  Some (header ++ concat attributes).

Definition parseChangeRequest (attrValue : list Z) : bool * bool :=
  if (List.length attrValue <? 4)%nat then (false, false)
  else
    match readUInt32BE attrValue 0 with
    | Some flags =>
        let changeIP := negb (JS.and flags 0x04 =? 0) in
        let changePort := negb (JS.and flags 0x02 =? 0) in
        (changeIP, changePort)
    | None => (false, false)
    end.

(** *** The listener *)

(** [rinfo]: where a datagram came from. *)
Record RemoteInfo : Type := mkRemoteInfo {
  address : string;
  port : Z
}.

(** A UDP socket, known by the port it is bound to. *)
Record Socket : Type := mkSocket {
  boundPort : Z
}.

(** A datagram on the wire: the port it leaves from is the port of the
    socket it was sent through. *)
Record Datagram : Type := mkDatagram {
  sourcePort : Z;
  destPort : Z;
  destAddress : string;
  payload : list Z
}.

(** [socket.send(msg, port, address)] *)
Definition send (socket : Socket) (msg : list Z) (port : Z)
    (address : string) : Datagram :=
  {| sourcePort := boundPort socket;
     destPort := port;
     destAddress := address;
     payload := msg |}.

(** The block "Determine response address and port" of the handler: the
    value of [responsePort], which is announced in RESPONSE-ORIGIN, from
    the listener's port and the CHANGE-REQUEST flags. *)
Definition chooseResponsePort (port : Z) (changeIP changePort : bool) : Z :=
  if changePort && negb changeIP then
    if port =? PRIMARY then SECONDARY else port
  else port.

(** The ["message"] handler installed by [createSTUNServer(port, name)]
    on its socket: the datagrams it sends for one incoming message, or
    the exception that escapes it.  [localAddr] is what
    [socket.address().address] gives. *)
Definition onMessage (port : Z) (localAddr : string) (msg : list Z)
    (rinfo : RemoteInfo) : Try (list Datagram) :=
  let socket := {| boundPort := port |} in
  match parseSTUNMessage msg with
  | None => Return []
  | Some stunMsg =>
      if negb (type stunMsg =? BINDING_REQUEST) then Return []
      else
        let changeReq := attributes stunMsg !! CHANGE_REQUEST in
        let '(changeIP, changePort) :=
          match changeReq with
          | Some changeReq => parseChangeRequest changeReq
          | None => (false, false)
          end in
        let responsePort := chooseResponsePort port changeIP changePort in
        match buildSTUNResponse (transactionId stunMsg) (address rinfo)
                (Stun.port rinfo) (Some localAddr) (Some responsePort) with
        | None => Throw "ERR_OUT_OF_RANGE"
        | Some response =>
            if responsePort =? port then
              Return [send socket response (Stun.port rinfo) (address rinfo)]
            else
              (* "not implemented yet ... just send from same port" *)
              Return [send socket response (Stun.port rinfo) (address rinfo)]
        end
  end.

End Stun.

(* ===================================================================== *)
(** ** The specification's side *)
(* ===================================================================== *)

(** The definitions of this part follow the words of the specification;
    the theorems compare them with the code above. *)

Module Spec.

(** The resolution table of the orchestrator (§4.6): rows are read top
    down, a dash is "any". *)
Definition resolutionTable (portStable test2Passed test3Passed : bool)
  : NATType :=
  match portStable, test2Passed, test3Passed with
  | false, _, _ => SYMMETRIC
  | true, true, _ => FULL_CONE
  | true, false, true => RESTRICTED_CONE
  | true, false, false => PORT_RESTRICTED_CONE
  end.

(** The external address a candidate reports: [address], or the
    non-standard [ip] when [address] is empty or missing. *)
Definition externalAddress (c : RTCIceCandidate) : option string :=
  match ICE.address c with
  | Some (String a s) => Some (String a s)
  | _ => ICE.ip c
  end.

(** The measurement record after invalid entries are discarded (§4.4):
    the server-reflexive candidates, in arrival order, whose address is
    present and not empty and whose port is present and not zero. *)
Fixpoint validMappings (candidates : list RTCIceCandidate) : list Mapping :=
  match candidates with
  | [] => []
  | c :: rest =>
      match ICE.type c, externalAddress c, ICE.port c with
      | Some ICE.srflx, Some (String a s), Some p =>
          if p =? 0 then validMappings rest
          else {| ip := String a s; port := p |} :: validMappings rest
      | _, _, _ => validMappings rest
      end
  end.

(** "All observed values are equal". *)
Definition allEqual {A : Type} (l : list A) : Prop :=
  forall x y, In x l -> In y l -> x = y.

(** Undoing the obfuscation of a mapped-address value (§4.1): the port
    is XORed with the upper half of the magic cookie, the four address
    bytes with the four bytes of the cookie. *)
Definition unxorMappedAddress (attrValue : list Z) : option (list Z * Z) :=
  match attrValue with
  | [_; _; p0; p1; a0; a1; a2; a3] =>
      Some ([Z.lxor a0 0x21; Z.lxor a1 0x12; Z.lxor a2 0xa4; Z.lxor a3 0x42],
            Z.lxor (p0 * 256 + p1) 0x2112)
  | _ => None
  end.

(** A valid IPv4 address with the given octets. *)
Definition isIPv4 (addr : string) (a b c d : Z) : Prop :=
  octetsOf addr = [Some a; Some b; Some c; Some d]
  /\ 0 <= a < 256 /\ 0 <= b < 256 /\ 0 <= c < 256 /\ 0 <= d < 256.

(** The usual text of an IPv4 address: four decimal octets separated by
    dots. *)
Definition dottedQuad (a b c d : Z) : string :=
  pretty a +:+ "." +:+ pretty b +:+ "." +:+ pretty c +:+ "." +:+ pretty d.

Fixpoint noDot (s : string) : bool :=
  match s with
  | EmptyString => true
  | String c s' => negb (Ascii.eqb c ".") && noDot s'
  end.

(** The optional origin address of a response is valid when both parts
    are absent or it is an IPv4 address with a non-zero 16-bit port. *)
Definition validOrigin (responseAddr : option string)
    (responsePort : option Z) : Prop :=
  match responseAddr, responsePort with
  | None, None => True
  | Some addr, Some p =>
      (exists a b c d, isIPv4 addr a b c d) /\ 0 < p < 65536
  | _, _ => False
  end.

(** "An attribute's declared length runs past the buffer" (§4.1): walking
    the attributes from [offset] as the wire format lays them out, some
    attribute that starts inside the message body declares more value
    bytes than the buffer holds. *)
Fixpoint attributeOverruns (fuel : nat) (buffer : list Z) (length : Z)
    (offset : nat) : bool :=
  match fuel with
  | O => false
  | S fuel' =>
      if (offset + 4 <=? List.length buffer)%nat
         && (Z.of_nat offset <? 20 + length)
      then
        match Stun.readUInt16BE buffer (offset + 2) with
        | Some attrLength =>
            if (List.length buffer <? offset + 4 + Z.to_nat attrLength)%nat
            then true
            else attributeOverruns fuel' buffer length
                   (offset + 4 + Stun.padded (Z.to_nat attrLength))
        | None => false
        end
      else false
  end.

Definition hasOverrun (buffer : list Z) : bool :=
  match Stun.readUInt16BE buffer 2 with
  | Some length => attributeOverruns (S (List.length buffer)) buffer length 20
  | None => false
  end.

(** The candidates a run of the probe has delivered. *)
Fixpoint candidatesOf (events : list Probe.Event) : list RTCIceCandidate :=
  match events with
  | [] => []
  | Probe.IceCandidate (Some c) :: rest => c :: candidatesOf rest
  | _ :: rest => candidatesOf rest
  end.

(** "A local (host) mapping was produced". *)
Definition hostProduced (candidates : list RTCIceCandidate) : bool :=
  existsb (ICE.isType ICE.host) candidates.

(** "An external mapping was produced". *)
Definition externalProduced (candidates : list RTCIceCandidate) : bool :=
  existsb (ICE.isType ICE.srflx) candidates.

(** An event that makes the probe finish gathering: the end-of-candidates
    signal, the gathering state [complete], or an adaptive wait that
    elapses. *)
Definition finishes (e : Probe.Event) : bool :=
  match e with
  | Probe.IceCandidate None => true
  | Probe.GatheringStateChange Probe.complete => true
  | Probe.WaitElapsed => true
  | _ => false
  end.

(** The first event of a run that ends it (gathering finishes, the
    ceiling elapses, or the set-up fails), with the candidates delivered
    before it. *)
Fixpoint firstDecisive (seen : list RTCIceCandidate)
    (events : list Probe.Event)
  : option (list RTCIceCandidate * Probe.Event) :=
  match events with
  | [] => None
  | e :: rest =>
      match e with
      | Probe.IceCandidate (Some c) => firstDecisive (seen ++ [c]) rest
      | Probe.GatheringStateChange Probe.new
      | Probe.GatheringStateChange Probe.gathering => firstDecisive seen rest
      | _ => Some (seen, e)
      end
  end.

(** What the first ending event makes of a run, given the candidates
    delivered before it: the ceiling and a failed set-up reject; an event
    that finishes gathering rejects when no host candidate is on record
    and resolves with the analysis of the record otherwise. *)
Definition verdict (seen : list RTCIceCandidate) (e : Probe.Event)
  : Try ProbeResult :=
  match e with
  | Probe.CeilingElapsed => Throw "Detection timeout"
  | Probe.SetupFailed message => Throw message
  | _ =>
      match extractIPInfo seen with
      | Throw message => Throw message
      | Return ipInfo =>
          Return
            {| pr_ipInfo := ipInfo;
               pr_portMapping := analyzePortMapping seen;
               pr_successfulServers :=
                 if externalProduced seen then ["STUN server (via ICE)"]
                 else [];
               pr_confidence := confidenceOf (analyzePortMapping seen);
               pr_confidenceReason :=
                 confidenceReasonOf (analyzePortMapping seen) |}
      end
  end.

End Spec.

(* ===================================================================== *)
(** ** Predicates for the further properties *)
(* ===================================================================== *)

Module Shape.

(** What holds of the variables of a run of the probe after every
    callback: a settled promise goes with a closed connection and a ceiling
    timer that is no longer armed; [resolved] is only set together with an
    outcome; every adaptive wait is one of the three delays; and a wait has
    been started exactly when a host candidate and a server-reflexive
    candidate are both on record. *)
Definition probeConsistent (st : Probe.State) : Prop :=
  (Probe.settled st <> None ->
   Probe.closed st = true /\ Probe.timeoutId st = None)
  /\ (Probe.resolved st = true -> Probe.settled st <> None)
  /\ Forall (fun w => w = 5000 \/ w = 2000 \/ w = 1000) (Probe.waits st)
  /\ (Probe.waits st = []
      <-> Spec.hostProduced (Probe.candidates st)
          && Spec.externalProduced (Probe.candidates st) = false).

(** A string without the given character. *)
Fixpoint lacks (sep : ascii) (s : string) : bool :=
  match s with
  | EmptyString => true
  | String c s' => negb (Ascii.eqb c sep) && lacks sep s'
  end.

(** A byte. *)
Definition isByte (b : Z) : Prop := 0 <= b < 256.

End Shape.

(* ===================================================================== *)
(** * Theorems *)
(* ===================================================================== *)

(** ** The classifier *)

Example isPrivateIP_home : isPrivateIP "192.168.1.5" = true.
Proof. reflexivity. Qed.

Example isPrivateIP_public : isPrivateIP "8.8.8.8" = false.
Proof. reflexivity. Qed.

Example isCGNATIP_carrier : isCGNATIP "100.64.0.1" = true.
Proof. reflexivity. Qed.

Example isCGNATIP_documentation : isCGNATIP "203.0.113.10" = false.
Proof. reflexivity. Qed.

(** The classifier looks at its two arguments through four booleans. *)
Lemma classifyNAT_flags (ipInfo : IPAddressInfo) (portMapping : PortMappingInfo) :
  classifyNAT ipInfo portMapping =
  match isBehindLocalNAT ipInfo, isBehindCGNAT ipInfo with
  | true, true => MULTIPLE_LAYERS
  | false, false => NO_NAT
  | _, _ =>
      if isPortConsistent portMapping && isIPConsistent portMapping
      then CONE_NAT else SYMMETRIC
  end.
Proof.
  unfold classifyNAT.
  destruct (isBehindLocalNAT ipInfo), (isBehindCGNAT ipInfo),
    (isPortConsistent portMapping), (isIPConsistent portMapping); reflexivity.
Qed.

(** C1.  For every address record and every mapping record,
    [classifyNAT] gives MULTIPLE_LAYERS when [isBehindLocalNAT] and
    [isBehindCGNAT] are both true and NO_NAT when both are false, and in
    no other case: the two answers depend on the address flags alone,
    whatever [isPortConsistent], [isIPConsistent] and the observed
    mappings are. *)
Theorem classifyNAT_layers_before_mappings
    (ipInfo : IPAddressInfo) (portMapping : PortMappingInfo) :
  (classifyNAT ipInfo portMapping = MULTIPLE_LAYERS
   <-> isBehindLocalNAT ipInfo = true /\ isBehindCGNAT ipInfo = true)
  /\ (classifyNAT ipInfo portMapping = NO_NAT
      <-> isBehindLocalNAT ipInfo = false /\ isBehindCGNAT ipInfo = false).
Proof.
  rewrite classifyNAT_flags.
  destruct (isBehindLocalNAT ipInfo), (isBehindCGNAT ipInfo);
    try destruct (isPortConsistent portMapping && isIPConsistent portMapping);
    repeat split; intros; try discriminate; try tauto;
    match goal with H : _ /\ _ |- _ => destruct H; discriminate end.
Qed.

Example no_nat_whatever_the_mappings :
  classifyNAT (mkIPAddressInfo "8.8.8.8" (Some "8.8.8.8") (Some 40000)
                 (isPrivateIP "8.8.8.8") (isCGNATIP "8.8.8.8"))
    (mkPortMappingInfo false false
       [mkMapping "8.8.8.8" 40000; mkMapping "8.8.4.4" 40001])
  = NO_NAT.
Proof. reflexivity. Qed.

(** C9, as stated, fails: with a port-inconsistent mapping record the
    classifier still answers MULTIPLE_LAYERS when both address flags are
    set, and NO_NAT when neither is. *)
Lemma classifyNAT_port_inconsistent_not_always_symmetric :
  ~ (forall ipInfo portMapping,
        isPortConsistent portMapping = false ->
        classifyNAT ipInfo portMapping = SYMMETRIC).
Proof.
  intros H.
  specialize (H (mkIPAddressInfo "192.168.1.5" (Some "100.64.0.1") (Some 40000)
                   true true)
                (mkPortMappingInfo false true [])).
  discriminate (H eq_refl).
Qed.

(** C9, amended.  When exactly one of [isBehindLocalNAT], [isBehindCGNAT]
    holds and [isPortConsistent] is false, [classifyNAT] gives SYMMETRIC,
    whatever [isIPConsistent] is. *)
Theorem classifyNAT_port_inconsistent_symmetric
    (ipInfo : IPAddressInfo) (portMapping : PortMappingInfo) :
  isBehindLocalNAT ipInfo <> isBehindCGNAT ipInfo ->
  isPortConsistent portMapping = false ->
  classifyNAT ipInfo portMapping = SYMMETRIC.
Proof.
  intros Hflags Hport. rewrite classifyNAT_flags, Hport.
  destruct (isBehindLocalNAT ipInfo), (isBehindCGNAT ipInfo);
    simpl; congruence.
Qed.

(** The second scenario of the specification: a private local address, a
    public address outside the carrier-grade range, two mappings whose
    ports differ. *)
Lemma classifyNAT_port_inconsistent_symmetric_witness :
  classifyNAT
    (mkIPAddressInfo "192.168.1.5" (Some "203.0.113.10") (Some 40000)
       true false)
    (mkPortMappingInfo false true
       [mkMapping "203.0.113.10" 40000; mkMapping "203.0.113.10" 40001])
  = SYMMETRIC.
Proof.
  apply classifyNAT_port_inconsistent_symmetric; simpl;
    [discriminate | reflexivity].
Defined.

(** ** The orchestrator *)

(** C3.  The NAT type the orchestrator derives from the outcomes of
    Tests II, III and IV is the one of the resolution table: SYMMETRIC
    when Test IV did not pass, whatever Tests II and III say; otherwise
    FULL_CONE when Test II passed; otherwise RESTRICTED_CONE when Test III
    passed; otherwise PORT_RESTRICTED_CONE.  The type [performAdvancedTests]
    reports is the table's entry for the outcomes it reports. *)
Theorem determineNATType_resolution_table
    (test2 test3 test4 : Route.TestResult) (req : Route.AdvancedDetectionRequest) :
  fst (Route.determineNATType test2 test3 test4)
  = Spec.resolutionTable (Route.passed test4) (Route.passed test2)
      (Route.passed test3)
  /\ (forall why,
        fst (Route.determineNATType test2 test3 (Route.mkTest false why))
        = SYMMETRIC)
  /\ exists t,
       Route.tests (Route.performAdvancedTests req) = Some t
       /\ Route.natType (Route.performAdvancedTests req)
          = Some (Spec.resolutionTable (Route.passed (Route.test4 t))
                    (Route.passed (Route.test2 t))
                    (Route.passed (Route.test3 t))).
Proof.
  split; [| split].
  - unfold Route.determineNATType.
    destruct (Route.passed test4), (Route.passed test2), (Route.passed test3);
      reflexivity.
  - intros why. reflexivity.
  - eexists. split; reflexivity.
Qed.

(** The verdict of [performAdvancedTests] is the same for any two
    requests; of the whole reply only the description of Test I mentions
    the request. *)
Lemma performAdvancedTests_request_independent
    (req1 req2 : Route.AdvancedDetectionRequest) :
  Route.natType (Route.performAdvancedTests req1)
  = Route.natType (Route.performAdvancedTests req2)
  /\ Route.confidence (Route.performAdvancedTests req1)
     = Route.confidence (Route.performAdvancedTests req2)
  /\ Route.confidenceReason (Route.performAdvancedTests req1)
     = Route.confidenceReason (Route.performAdvancedTests req2)
  /\ option_map
       (fun t => (Route.passed (Route.test1 t), Route.test2 t,
                  Route.test3 t, Route.test4 t))
       (Route.tests (Route.performAdvancedTests req1))
     = option_map
         (fun t => (Route.passed (Route.test1 t), Route.test2 t,
                    Route.test3 t, Route.test4 t))
         (Route.tests (Route.performAdvancedTests req2)).
Proof. repeat split. Qed.

Example post_rejects_missing_port :
  Route.POST (Return (Route.mkBody (Some "203.0.113.10") None None))
  = (400, Route.errorResponse
            "Missing required fields: publicIP and publicPort").
Proof. reflexivity. Qed.

(** C10.  For every request body in which [publicIP] and [publicPort] are
    present, the route answers with status 200 and [success = true]; Test I
    passed, Tests II and III did not, Test IV passed; the NAT type is
    PORT_RESTRICTED_CONE and the confidence "high", with one and the same
    reason: none of these depends on the request. *)
Theorem advanced_tests_constant (body : Route.Body) :
  JS.truthyStr (Route.body_publicIP body) = true ->
  JS.truthyNum (Route.body_publicPort body) = true ->
  exists (r : Route.AdvancedDetectionResponse) (t : Route.Tests),
    Route.POST (Return body) = (200, r)
    /\ Route.success r = true
    /\ Route.tests r = Some t
    /\ Route.passed (Route.test1 t) = true
    /\ Route.passed (Route.test2 t) = false
    /\ Route.passed (Route.test3 t) = false
    /\ Route.passed (Route.test4 t) = true
    /\ Route.natType r = Some PORT_RESTRICTED_CONE
    /\ Route.confidence r = Some high
    /\ Route.confidenceReason r =
       Some "High confidence: Did not receive response from different IP:port combination"
    /\ Route.error r = None.
Proof.
  intros Hip Hport. unfold Route.POST. rewrite Hip, Hport. simpl.
  destruct (Route.body_publicIP body) as [publicIP|]; [| discriminate].
  destruct (Route.body_publicPort body) as [publicPort|]; [| discriminate].
  eexists. eexists. split; [reflexivity |].
  repeat split; reflexivity.
Qed.

(** A request as the advanced client sends it. *)
Lemma advanced_tests_constant_witness :
  exists (r : Route.AdvancedDetectionResponse) (t : Route.Tests),
    Route.POST
      (Return (Route.mkBody (Some "203.0.113.10") (Some 40000)
                 (Some "192.168.1.5"))) = (200, r)
    /\ Route.success r = true
    /\ Route.tests r = Some t
    /\ Route.passed (Route.test1 t) = true
    /\ Route.passed (Route.test2 t) = false
    /\ Route.passed (Route.test3 t) = false
    /\ Route.passed (Route.test4 t) = true
    /\ Route.natType r = Some PORT_RESTRICTED_CONE
    /\ Route.confidence r = Some high
    /\ Route.confidenceReason r =
       Some "High confidence: Did not receive response from different IP:port combination"
    /\ Route.error r = None.
Proof.
  apply (advanced_tests_constant
           (Route.mkBody (Some "203.0.113.10") (Some 40000)
              (Some "192.168.1.5"))); reflexivity.
Defined.

(** ** The mapping analyzer *)

Section SetSize.
Context {A : Type} `{Countable A}.

(** A set built from a list has at most one element exactly when all
    the members of the list are equal. *)
Lemma size_list_to_set_le_1 (l : list A) :
  (size (list_to_set l : gset A) <= 1)%nat <-> Spec.allEqual l.
Proof.
  unfold Spec.allEqual. split.
  - intros Hsize x y Hx Hy.
    apply list_elem_of_In, (elem_of_list_to_set (C := gset A)) in Hx, Hy.
    destruct (size (list_to_set l : gset A)) as [|[|n]] eqn:Hn.
    + apply size_empty_inv in Hn. set_solver.
    + exact (size_singleton_inv _ x y Hn Hx Hy).
    + lia.
  - intros Heq. destruct l as [|x l'].
    + rewrite list_to_set_nil, size_empty. lia.
    + rewrite <- (size_singleton (C := gset A) x).
      apply subseteq_size. intros z Hz.
      apply elem_of_list_to_set, list_elem_of_In in Hz.
      apply elem_of_singleton. apply Heq; [exact Hz | left; reflexivity].
Qed.
End SetSize.

(** The pipeline [filter], [map], [filter] of the analyzer keeps exactly
    the valid mappings of the specification, in order. *)
Lemma mappings_are_validMappings (candidates : list RTCIceCandidate) :
  omap toMapping (List.filter (ICE.isType ICE.srflx) candidates)
  = Spec.validMappings candidates.
Proof.
  induction candidates as [|c rest IH]; [reflexivity |].
  destruct c as [cand ty addr ipo po].
  cbn [List.filter Spec.validMappings ICE.type].
  destruct ty as [[| | |]|]; cbn [ICE.isType ICE.type]; try exact IH.
  cbn [omap list_omap].
  change (list_omap _ _ toMapping ?l) with (omap toMapping l). rewrite IH.
  unfold toMapping, Spec.externalAddress, JS.orStr.
  cbn [ICE.address ICE.ip ICE.port].
  destruct addr as [[|a s]|], ipo as [[|a' s']|], po as [[|p|p]|];
    reflexivity.
Qed.

Lemma validMappings_valid (candidates : list RTCIceCandidate) :
  Forall (fun m => ip m <> EmptyString /\ port m <> 0) (Spec.validMappings candidates).
Proof.
  induction candidates as [|c rest IH]; simpl; [constructor |].
  destruct (ICE.type c) as [[| | |]|]; try exact IH.
  destruct (Spec.externalAddress c) as [[|a s]|]; try exact IH.
  destruct (ICE.port c) as [p|]; try exact IH.
  destruct (Z.eqb_spec p 0); [exact IH |].
  constructor; [split; [discriminate | assumption] | exact IH].
Qed.

(** The mappings the analyzer reports are the valid ones. *)
Lemma analyzePortMapping_obs (candidates : list RTCIceCandidate) :
  observedMappings (analyzePortMapping candidates)
  = Spec.validMappings candidates.
Proof.
  unfold analyzePortMapping. rewrite mappings_are_validMappings.
  destruct (Spec.validMappings candidates) as [|m [|m' ms]]; reflexivity.
Qed.

(** C2.  [analyzePortMapping] reports the valid mappings only (the
    server-reflexive entries with a non-empty address and a non-zero
    port).  With none of them both facts are false and the confidence of
    the run is low; with exactly one both facts are true and the
    confidence is low; with two or more, [isPortConsistent] holds exactly
    when all observed ports are equal, [isIPConsistent] exactly when all
    observed addresses are equal, and the confidence is high. *)
Theorem analyzePortMapping_by_count (candidates : list RTCIceCandidate) :
  observedMappings (analyzePortMapping candidates)
  = Spec.validMappings candidates
  /\ Forall (fun m => ip m <> EmptyString /\ port m <> 0)
       (observedMappings (analyzePortMapping candidates))
  /\ match Spec.validMappings candidates with
     | [] =>
         isPortConsistent (analyzePortMapping candidates) = false
         /\ isIPConsistent (analyzePortMapping candidates) = false
         /\ confidenceOf (analyzePortMapping candidates) = low
     | [_] =>
         isPortConsistent (analyzePortMapping candidates) = true
         /\ isIPConsistent (analyzePortMapping candidates) = true
         /\ confidenceOf (analyzePortMapping candidates) = low
     | (_ :: _ :: _) as observed =>
         (isPortConsistent (analyzePortMapping candidates) = true
          <-> Spec.allEqual (map port observed))
         /\ (isIPConsistent (analyzePortMapping candidates) = true
             <-> Spec.allEqual (map ip observed))
         /\ confidenceOf (analyzePortMapping candidates) = high
     end.
Proof.
  pose proof (analyzePortMapping_obs candidates) as Hobs.
  split; [exact Hobs |].
  split; [rewrite Hobs; apply validMappings_valid |].
  unfold confidenceOf. rewrite Hobs.
  unfold analyzePortMapping. rewrite mappings_are_validMappings.
  destruct (Spec.validMappings candidates) as [|m [|m' ms]].
  - repeat split.
  - repeat split.
  - cbn [length Nat.eqb Nat.leb isPortConsistent isIPConsistent].
    rewrite <- !size_list_to_set_le_1.
    split; [| split; [| reflexivity]].
    + rewrite Nat.leb_le. reflexivity.
    + rewrite Nat.leb_le. reflexivity.
Qed.

Example analyze_cone_scenario :
  let srflx p := ICE.mkCandidate EmptyString (Some ICE.srflx) (Some "203.0.113.10")
                   None (Some p) in
  analyzePortMapping [srflx 40000; srflx 40000]
  = mkPortMappingInfo true true
      [mkMapping "203.0.113.10" 40000; mkMapping "203.0.113.10" 40000].
Proof. vm_compute. reflexivity. Qed.

Example analyze_symmetric_scenario :
  let srflx p := ICE.mkCandidate EmptyString (Some ICE.srflx) (Some "203.0.113.10")
                   None (Some p) in
  analyzePortMapping [srflx 40000; srflx 0; srflx 40001]
  = mkPortMappingInfo false true
      [mkMapping "203.0.113.10" 40000; mkMapping "203.0.113.10" 40001].
Proof. vm_compute. reflexivity. Qed.

(** ** The binding codec: parsing *)

Lemma nth_error_in_range (buf : list Z) (i : nat) :
  (i < List.length buf)%nat -> exists b, nth_error buf i = Some b.
Proof.
  intros Hi. destruct (nth_error buf i) as [b|] eqn:Hb; [eauto |].
  apply nth_error_None in Hb. lia.
Qed.

Lemma readUInt16BE_in_range (buf : list Z) (offset : nat) :
  (offset + 2 <= List.length buf)%nat ->
  exists v, Stun.readUInt16BE buf offset = Some v.
Proof.
  intros Hlen. unfold Stun.readUInt16BE.
  destruct (nth_error_in_range buf offset) as [b0 ->]; [lia |].
  destruct (nth_error_in_range buf (offset + 1)) as [b1 ->]; [lia |].
  eauto.
Qed.

Lemma readUInt32BE_in_range (buf : list Z) (offset : nat) :
  (offset + 4 <= List.length buf)%nat ->
  exists v, Stun.readUInt32BE buf offset = Some v.
Proof.
  intros Hlen. unfold Stun.readUInt32BE.
  destruct (nth_error_in_range buf offset) as [b0 ->]; [lia |].
  destruct (nth_error_in_range buf (offset + 1)) as [b1 ->]; [lia |].
  destruct (nth_error_in_range buf (offset + 2)) as [b2 ->]; [lia |].
  destruct (nth_error_in_range buf (offset + 3)) as [b3 ->]; [lia |].
  eauto.
Qed.

(** The attribute loop ends, and without an exception: the guard before
    the two reads keeps them inside the buffer, and each turn moves the
    offset forward. *)
Lemma parseAttributes_total (fuel : nat) :
  forall (buffer : list Z) (length : Z) (offset : nat)
         (attributes : gmap Z (list Z)),
    (0 < fuel)%nat ->
    (List.length buffer < fuel + offset)%nat ->
    exists attributes',
      Stun.parseAttributes fuel buffer length offset attributes
      = Some attributes'.
Proof.
  induction fuel as [|fuel IH];
    intros buffer len offset attributes Hpos Hfuel; [lia |].
  cbn [Stun.parseAttributes].
  destruct ((offset <? List.length buffer)%nat && (Z.of_nat offset <? 20 + len))
    eqn:Hguard; [| eauto].
  apply andb_prop in Hguard as [Hinside _]. apply Nat.ltb_lt in Hinside.
  destruct (List.length buffer <? offset + 4)%nat eqn:Hbreak; [eauto |].
  apply Nat.ltb_ge in Hbreak.
  destruct (readUInt16BE_in_range buffer offset) as [attrType ->]; [lia |].
  destruct (readUInt16BE_in_range buffer (offset + 2)) as [attrLength ->];
    [lia |].
  apply IH; lia.
Qed.


(** C5, as stated, fails: a request whose only attribute declares eight
    bytes of value and carries none is parsed, with an empty value for
    that attribute. *)
Lemma parse_accepts_overrunning_attribute :
  ~ (forall buffer : list Z,
        Stun.parseSTUNMessage buffer = None <->
        ((List.length buffer < 20)%nat
         \/ Stun.readUInt32BE buffer 4 <> Some Stun.STUN_MAGIC_COOKIE
         \/ Spec.hasOverrun buffer = true)).
Proof.
  intros Hclaim.
  pose (buffer := [0; 1; 0; 8; 0x21; 0x12; 0xa4; 0x42;
                   1; 2; 3; 4; 5; 6; 7; 8; 9; 10; 11; 12;
                   0; 3; 0; 8]).
  destruct (Hclaim buffer) as [_ Hfail].
  assert (Hparsed : Stun.parseSTUNMessage buffer
                    = Some (Stun.mkMessage 1 8 [1; 2; 3; 4; 5; 6; 7; 8; 9; 10; 11; 12]
                              (<[3 := []]> ∅)))
    by (vm_compute; reflexivity).
  rewrite Hfail in Hparsed; [discriminate |].
  right. right. vm_compute. reflexivity.
Qed.

(** C5, amended.  [parseSTUNMessage] gives no message exactly when the
    buffer is shorter than the 20-byte header or the magic cookie field is
    not 0x2112A442.  The cookie is tested before the attributes are
    walked. *)
Theorem parse_fails_iff_short_or_bad_cookie (buffer : list Z) :
  Stun.parseSTUNMessage buffer = None <->
  ((List.length buffer < 20)%nat
   \/ Stun.readUInt32BE buffer 4 <> Some Stun.STUN_MAGIC_COOKIE).
Proof.
  unfold Stun.parseSTUNMessage.
  destruct (List.length buffer <? 20)%nat eqn:Hshort.
  - apply Nat.ltb_lt in Hshort. split; [left; exact Hshort | reflexivity].
  - apply Nat.ltb_ge in Hshort.
    destruct (readUInt16BE_in_range buffer 0) as [type ->]; [lia |].
    destruct (readUInt16BE_in_range buffer 2) as [len ->]; [lia |].
    destruct (readUInt32BE_in_range buffer 4) as [magicCookie ->]; [lia |].
    destruct (Z.eqb_spec magicCookie Stun.STUN_MAGIC_COOKIE) as [-> | Hne];
      cbn [negb].
    + destruct (parseAttributes_total (S (List.length buffer)) buffer len 20 ∅)
        as [attributes ->]; [lia | lia |].
      split; [discriminate |].
      intros [Hlt | Hcookie]; [lia | congruence].
    + split; [| reflexivity].
      intros _. right. congruence.
Qed.

(** A declared length that runs past the end does not make the parse
    fail: the value is cut at the end of the buffer. *)
Lemma parse_truncates_overrunning_attribute :
  Stun.parseSTUNMessage
    [0; 1; 0; 8; 0x21; 0x12; 0xa4; 0x42;
     1; 2; 3; 4; 5; 6; 7; 8; 9; 10; 11; 12;
     0; 3; 0; 8; 0; 0]
  = Some (Stun.mkMessage 1 8 [1; 2; 3; 4; 5; 6; 7; 8; 9; 10; 11; 12]
            (<[3 := [0; 0]]> ∅)).
Proof. vm_compute. reflexivity. Qed.

Example parse_rejects_wrong_cookie :
  Stun.parseSTUNMessage
    [0; 1; 0; 0; 0x21; 0x12; 0xa4; 0x43;
     1; 2; 3; 4; 5; 6; 7; 8; 9; 10; 11; 12] = None.
Proof. reflexivity. Qed.


(** ** The binding codec: building and the round trip *)

Lemma lxor_bound (n a b : Z) :
  0 <= n -> 0 <= a < 2 ^ n -> 0 <= b < 2 ^ n -> 0 <= Z.lxor a b < 2 ^ n.
Proof.
  intros Hn Ha Hb. split; [apply Z.lxor_nonneg; lia |].
  destruct (Z.eq_dec (Z.lxor a b) 0) as [-> | Hnz]; [lia |].
  assert (0 <= Z.lxor a b) by (apply Z.lxor_nonneg; lia).
  apply Z.log2_lt_pow2; [lia |].
  eapply Z.le_lt_trans; [apply Z.log2_lxor; lia |].
  assert (Hlog : forall x, 0 <= x < 2 ^ n -> 0 < n -> Z.log2 x < n).
  { intros x Hx Hpos. destruct (Z.eq_dec x 0) as [-> | Hx0]; [exact Hpos |].
    apply Z.log2_lt_pow2; lia. }
  assert (0 < n).
  { destruct (Z.eq_dec n 0) as [-> | ]; [| lia].
    exfalso. apply Hnz. replace a with 0 by (simpl in Ha; lia).
    replace b with 0 by (simpl in Hb; lia). reflexivity. }
  apply Z.max_lub_lt; apply Hlog; lia.
Qed.

Lemma toInt32_small (z : Z) : 0 <= z < 2 ^ 31 -> JS.toInt32 z = z.
Proof.
  intros Hz. unfold JS.toInt32.
  rewrite Z.mod_small by lia.
  destruct (Z.ltb_spec z (2 ^ 31)); [reflexivity | lia].
Qed.

Lemma xor_small (a b : Z) :
  0 <= a < 2 ^ 31 -> 0 <= b < 2 ^ 31 -> JS.xor a b = Z.lxor a b.
Proof.
  intros Ha Hb. unfold JS.xor. rewrite (toInt32_small a), (toInt32_small b) by assumption.
  apply toInt32_small. apply lxor_bound; lia.
Qed.

Lemma magicBytes_value : Stun.magicBytes = [0x21; 0x12; 0xa4; 0x42].
Proof. reflexivity. Qed.

Lemma cookie_high_half : JS.sar Stun.STUN_MAGIC_COOKIE 16 = 0x2112.
Proof. reflexivity. Qed.

Lemma writeUInt8_byte (v : Z) (offset : nat) (buf : list Z) :
  0 <= v < 256 -> (offset < List.length buf)%nat ->
  Stun.writeUInt8 (Some v) offset buf = Some (<[offset := v]> buf).
Proof.
  intros Hv Hoff. unfold Stun.writeUInt8.
  destruct (Z.ltb_spec 255 v); [lia |].
  destruct (Z.ltb_spec v 0); [lia |].
  destruct (Nat.ltb_spec offset (List.length buf)); [reflexivity | lia].
Qed.

Lemma writeUInt16BE_word (v : Z) (offset : nat) (buf : list Z) :
  0 <= v < 65536 -> (offset + 1 < List.length buf)%nat ->
  Stun.writeUInt16BE v offset buf
  = Some (<[(offset + 1)%nat := v mod 256]> (<[offset := v / 256]> buf)).
Proof.
  intros Hv Hoff. unfold Stun.writeUInt16BE.
  destruct (Z.ltb_spec 65535 v); [lia |].
  destruct (Z.ltb_spec v 0); [lia |].
  destruct (Nat.ltb_spec (offset + 1) (List.length buf)); [| lia].
  cbn [orb]. rewrite (Z.mod_small (v / 256)); [reflexivity |].
  split; [apply Z.div_pos; lia | apply Z.div_lt_upper_bound; lia].
Qed.

(** *** Dotted quads are IPv4 addresses for [octetsOf] *)

Lemma split_without_dot (s : string) :
  Spec.noDot s = true -> JS.split "." s = [s].
Proof.
  induction s as [|c s IH]; [reflexivity |].
  cbn [Spec.noDot JS.split]. intros [Hc Hs]%andb_prop.
  apply negb_true_iff in Hc. rewrite Hc, (IH Hs). reflexivity.
Qed.

Lemma split_at_first_dot (s rest : string) :
  Spec.noDot s = true ->
  JS.split "." (s +:+ "." +:+ rest) = s :: JS.split "." rest.
Proof.
  induction s as [|c s IH]; [reflexivity |].
  cbn [Spec.noDot]. intros [Hc Hs]%andb_prop.
  apply negb_true_iff in Hc.
  change (String c s +:+ "." +:+ rest) with (String c (s +:+ "." +:+ rest)).
  cbn [JS.split]. rewrite Hc, (IH Hs). reflexivity.
Qed.

(** The decimal text of an octet has no dot and reads back as the
    octet. *)
Lemma octet_text (n : Z) :
  0 <= n < 256 ->
  Spec.noDot (pretty n) = true /\ JS.Number (pretty n) = Some n.
Proof.
  intros Hn.
  assert (Hall :
    forallb (fun k : nat =>
               Spec.noDot (pretty (Z.of_nat k))
               && match JS.Number (pretty (Z.of_nat k)) with
                  | Some v => v =? Z.of_nat k
                  | None => false
                  end)
      (seq 0 256) = true) by (vm_compute; reflexivity).
  rewrite forallb_forall in Hall.
  specialize (Hall (Z.to_nat n)). rewrite Z2Nat.id in Hall by lia.
  destruct (andb_prop _ _ (Hall ltac:(apply in_seq; lia))) as [Hdot Hnum].
  split; [exact Hdot |].
  destruct (JS.Number (pretty n)) as [v|]; [| discriminate].
  apply Z.eqb_eq in Hnum. congruence.
Qed.

Lemma dottedQuad_isIPv4 (a b c d : Z) :
  0 <= a < 256 -> 0 <= b < 256 -> 0 <= c < 256 -> 0 <= d < 256 ->
  Spec.isIPv4 (Spec.dottedQuad a b c d) a b c d.
Proof.
  intros Ha Hb Hc Hd. unfold Spec.isIPv4. split; [| tauto].
  destruct (octet_text a Ha) as [Hda Hna], (octet_text b Hb) as [Hdb Hnb],
    (octet_text c Hc) as [Hdc Hnc], (octet_text d Hd) as [Hdd Hnd].
  unfold octetsOf, Spec.dottedQuad.
  rewrite !split_at_first_dot, split_without_dot by assumption.
  cbn [map]. rewrite Hna, Hnb, Hnc, Hnd. reflexivity.
Qed.

Ltac run_writes :=
  unfold Stun.XOR_MAPPED_ADDRESS, Stun.RESPONSE_ORIGIN, Stun.BINDING_RESPONSE,
    Stun.alloc;
  repeat (first [ rewrite writeUInt8_byte by (cbn [List.length repeat]; lia)
                | rewrite writeUInt16BE_word
                    by (cbn [List.length repeat]; lia) ];
          cbn [mbind option_bind insert list_insert repeat Nat.add]).

Lemma buildXorMappedAddress_bytes (addr : string) (a b c d port : Z)
    (transactionId : list Z) :
  Spec.isIPv4 addr a b c d -> 0 <= port < 65536 ->
  Stun.buildXorMappedAddress addr port transactionId
  = Some [0; 0x20; 0; 8; 0; 1;
          Z.lxor port 0x2112 / 256; Z.lxor port 0x2112 mod 256;
          Z.lxor a 0x21; Z.lxor b 0x12; Z.lxor c 0xa4; Z.lxor d 0x42].
Proof.
  intros (Hoct & Ha & Hb & Hc & Hd) Hport.
  unfold Stun.buildXorMappedAddress.
  rewrite Hoct, magicBytes_value, cookie_high_half.
  cbn [imap lookup list_lookup Stun.operand compose].
  rewrite !xor_small by lia.
  pose proof (lxor_bound 16 port 0x2112 ltac:(lia) ltac:(lia) ltac:(lia)).
  pose proof (lxor_bound 8 a 0x21 ltac:(lia) ltac:(lia) ltac:(lia)).
  pose proof (lxor_bound 8 b 0x12 ltac:(lia) ltac:(lia) ltac:(lia)).
  pose proof (lxor_bound 8 c 0xa4 ltac:(lia) ltac:(lia) ltac:(lia)).
  pose proof (lxor_bound 8 d 0x42 ltac:(lia) ltac:(lia) ltac:(lia)).
  run_writes. reflexivity.
Qed.

Lemma buildResponseOrigin_bytes (addr : string) (a b c d port : Z) :
  Spec.isIPv4 addr a b c d -> 0 <= port < 65536 ->
  Stun.buildResponseOrigin addr port
  = Some [0x80; 0x2b; 0; 8; 0; 1; port / 256; port mod 256; a; b; c; d].
Proof.
  intros (Hoct & Ha & Hb & Hc & Hd) Hport.
  unfold Stun.buildResponseOrigin.
  rewrite Hoct. cbn [lookup list_lookup mjoin option_join].
  run_writes. reflexivity.
Qed.

Lemma isIPv4_truthy (addr : string) (a b c d : Z) :
  Spec.isIPv4 addr a b c d -> JS.truthyStr (Some addr) = true.
Proof.
  intros [Hoct _]. destruct addr; [discriminate Hoct | reflexivity].
Qed.

Lemma copy_into_header (transactionId header : list Z) :
  List.length transactionId = 12%nat -> List.length header = 20%nat ->
  Stun.copy transactionId header 8 = firstn 8 header ++ transactionId.
Proof.
  intros Hid Hheader. unfold Stun.copy. rewrite Hid, Hheader.
  cbn [Nat.sub Nat.min Nat.add].
  rewrite (firstn_all2 transactionId) by lia.
  rewrite (skipn_all2 header) by lia.
  rewrite app_nil_r. reflexivity.
Qed.

Ltac run_header :=
  cbn [mbind option_bind JS.truthyStr JS.truthyNum andb fold_left
       List.length Z.of_nat Z.add Pos.of_succ_nat Pos.succ];
  run_writes;
  unfold Stun.writeUInt32BE, Stun.STUN_MAGIC_COOKIE;
  cbn [List.length Nat.ltb Nat.leb Nat.add Z.ltb Z.compare Pos.compare
       Pos.compare_cont orb mbind option_bind insert list_insert];
  rewrite copy_into_header by (assumption || reflexivity).

Lemma buildSTUNResponse_without_origin
    (transactionId : list Z) (addr : string) (a b c d port : Z) :
  List.length transactionId = 12%nat ->
  Spec.isIPv4 addr a b c d -> 0 <= port < 65536 ->
  Stun.buildSTUNResponse transactionId addr port None None
  = Some ([1; 1; 0; 12; 0x21; 0x12; 0xa4; 0x42] ++ transactionId
          ++ [0; 0x20; 0; 8; 0; 1;
              Z.lxor port 0x2112 / 256; Z.lxor port 0x2112 mod 256;
              Z.lxor a 0x21; Z.lxor b 0x12; Z.lxor c 0xa4; Z.lxor d 0x42]).
Proof.
  intros Hlen Haddr Hport. unfold Stun.buildSTUNResponse.
  rewrite (buildXorMappedAddress_bytes addr a b c d) by assumption.
  run_header. reflexivity.
Qed.

Lemma buildSTUNResponse_with_origin
    (transactionId : list Z) (addr : string) (a b c d port : Z)
    (origin : string) (a' b' c' d' port' : Z) :
  List.length transactionId = 12%nat ->
  Spec.isIPv4 addr a b c d -> 0 <= port < 65536 ->
  Spec.isIPv4 origin a' b' c' d' -> 0 < port' < 65536 ->
  Stun.buildSTUNResponse transactionId addr port (Some origin) (Some port')
  = Some ([1; 1; 0; 24; 0x21; 0x12; 0xa4; 0x42] ++ transactionId
          ++ [0; 0x20; 0; 8; 0; 1;
              Z.lxor port 0x2112 / 256; Z.lxor port 0x2112 mod 256;
              Z.lxor a 0x21; Z.lxor b 0x12; Z.lxor c 0xa4; Z.lxor d 0x42]
          ++ [0x80; 0x2b; 0; 8; 0; 1; port' / 256; port' mod 256;
              a'; b'; c'; d']).
Proof.
  intros Hlen Haddr Hport Horigin Hport'. unfold Stun.buildSTUNResponse.
  rewrite (buildXorMappedAddress_bytes addr a b c d) by assumption.
  cbn [mbind option_bind].
  rewrite (isIPv4_truthy origin a' b' c' d') by assumption.
  replace (JS.truthyNum (Some port')) with true
    by (destruct port'; [lia | reflexivity | lia]).
  cbn [andb].
  rewrite (buildResponseOrigin_bytes origin a' b' c' d') by (assumption || lia).
  run_header. reflexivity.
Qed.

Ltac explicit_transactionId id H :=
  do 12 (destruct id as [|? id]; [discriminate H |]);
  destruct id; [clear H | discriminate H].

(** Parsing a response with one attribute of eight bytes. *)
Lemma parse_one_attribute (transactionId : list Z) (t0 t1 : Z) (value : list Z) :
  List.length transactionId = 12%nat -> List.length value = 8%nat ->
  Stun.parseSTUNMessage
    ([1; 1; 0; 12; 0x21; 0x12; 0xa4; 0x42] ++ transactionId
     ++ [t0; t1; 0; 8] ++ value)
  = Some (Stun.mkMessage 0x0101 12 transactionId
            (<[t0 * 256 + t1 := value]> ∅)).
Proof.
  intros Hid Hvalue.
  explicit_transactionId transactionId Hid.
  do 8 (destruct value as [|? value]; [discriminate Hvalue |]).
  destruct value; [clear Hvalue | discriminate Hvalue].
  reflexivity.
Qed.

(** Parsing a response with two attributes of eight bytes each. *)
Lemma parse_two_attributes (transactionId : list Z) (t0 t1 u0 u1 : Z)
    (value value' : list Z) :
  List.length transactionId = 12%nat ->
  List.length value = 8%nat -> List.length value' = 8%nat ->
  Stun.parseSTUNMessage
    ([1; 1; 0; 24; 0x21; 0x12; 0xa4; 0x42] ++ transactionId
     ++ ([t0; t1; 0; 8] ++ value) ++ [u0; u1; 0; 8] ++ value')
  = Some (Stun.mkMessage 0x0101 24 transactionId
            (<[u0 * 256 + u1 := value']> (<[t0 * 256 + t1 := value]> ∅))).
Proof.
  intros Hid Hvalue Hvalue'.
  explicit_transactionId transactionId Hid.
  do 8 (destruct value as [|? value]; [discriminate Hvalue |]).
  destruct value; [clear Hvalue | discriminate Hvalue].
  do 8 (destruct value' as [|? value']; [discriminate Hvalue' |]).
  destruct value'; [clear Hvalue' | discriminate Hvalue'].
  reflexivity.
Qed.

(** Applying the XOR twice gives the value back. *)
Lemma lxor_twice (x m : Z) : Z.lxor (Z.lxor x m) m = x.
Proof. rewrite Z.lxor_assoc, Z.lxor_nilpotent, Z.lxor_0_r. reflexivity. Qed.

Lemma unxor_mapped_value (a b c d port : Z) :
  Spec.unxorMappedAddress
    [0; 1; Z.lxor port 0x2112 / 256; Z.lxor port 0x2112 mod 256;
     Z.lxor a 0x21; Z.lxor b 0x12; Z.lxor c 0xa4; Z.lxor d 0x42]
  = Some ([a; b; c; d], port).
Proof.
  unfold Spec.unxorMappedAddress.
  rewrite !lxor_twice.
  rewrite (Z.mul_comm (Z.lxor port 8466 / 256) 256).
  rewrite <- (Z.div_mod (Z.lxor port 8466) 256) by lia.
  rewrite lxor_twice. reflexivity.
Qed.

(** C4.  For an IPv4 address of octets [a.b.c.d], a 16-bit port and a
    transaction ID of twelve bytes (and an origin address that is absent or
    valid), [buildSTUNResponse] gives bytes that [parseSTUNMessage]
    accepts as a binding response with the same transaction ID, whose
    XOR-MAPPED-ADDRESS value, XORed with the magic cookie once more, is the
    address and the port that went in. *)
Theorem binding_response_round_trip
    (transactionId : list Z) (addr : string) (a b c d port : Z)
    (responseAddr : option string) (responsePort : option Z) :
  List.length transactionId = 12%nat ->
  Spec.isIPv4 addr a b c d ->
  0 <= port < 65536 ->
  Spec.validOrigin responseAddr responsePort ->
  exists (bytes : list Z) (msg : Stun.STUNMessage) (value : list Z),
    Stun.buildSTUNResponse transactionId addr port responseAddr responsePort
    = Some bytes
    /\ Stun.parseSTUNMessage bytes = Some msg
    /\ Stun.type msg = Stun.BINDING_RESPONSE
    /\ Stun.transactionId msg = transactionId
    /\ Stun.attributes msg !! Stun.XOR_MAPPED_ADDRESS = Some value
    /\ Spec.unxorMappedAddress value = Some ([a; b; c; d], port).
Proof.
  intros Hid Haddr Hport Horigin.
  destruct responseAddr as [origin|], responsePort as [port'|];
    cbn [Spec.validOrigin] in Horigin; try contradiction.
  - destruct Horigin as [(a' & b' & c' & d' & Horigin) Hport'].
    eexists. eexists. eexists.
    split; [apply (buildSTUNResponse_with_origin _ _ a b c d _ _ a' b' c' d');
            assumption |].
    split; [apply (parse_two_attributes transactionId 0 0x20 0x80 0x2b);
            [assumption | reflexivity | reflexivity] |].
    split; [reflexivity |]. split; [reflexivity |].
    split; [| apply unxor_mapped_value].
    cbn [Stun.attributes]. rewrite lookup_insert_ne by discriminate.
    apply lookup_insert_eq.
  - eexists. eexists. eexists.
    split; [apply (buildSTUNResponse_without_origin _ _ a b c d); assumption |].
    split; [apply (parse_one_attribute transactionId 0 0x20);
            [assumption | reflexivity] |].
    split; [reflexivity |]. split; [reflexivity |].
    split; [| apply unxor_mapped_value].
    cbn [Stun.attributes]. apply lookup_insert_eq.
Qed.

(** A response to 203.0.113.10:40000 sent by the primary listener. *)
Lemma binding_response_round_trip_witness :
  exists (bytes : list Z) (msg : Stun.STUNMessage) (value : list Z),
    Stun.buildSTUNResponse [1; 2; 3; 4; 5; 6; 7; 8; 9; 10; 11; 12]
      "203.0.113.10" 40000 (Some "0.0.0.0") (Some 3478)
    = Some bytes
    /\ Stun.parseSTUNMessage bytes = Some msg
    /\ Stun.type msg = Stun.BINDING_RESPONSE
    /\ Stun.transactionId msg = [1; 2; 3; 4; 5; 6; 7; 8; 9; 10; 11; 12]
    /\ Stun.attributes msg !! Stun.XOR_MAPPED_ADDRESS = Some value
    /\ Spec.unxorMappedAddress value = Some ([203; 0; 113; 10], 40000).
Proof.
  apply binding_response_round_trip.
  - reflexivity.
  - unfold Spec.isIPv4. split; [reflexivity | lia].
  - lia.
  - split; [exists 0, 0, 0, 0; unfold Spec.isIPv4; split; [reflexivity | lia]
           | lia].
Defined.

(** ** The rendezvous server *)

Lemma parsed_transactionId_length (msg : list Z) (stunMsg : Stun.STUNMessage) :
  Stun.parseSTUNMessage msg = Some stunMsg ->
  List.length (Stun.transactionId stunMsg) = 12%nat.
Proof.
  unfold Stun.parseSTUNMessage.
  destruct (List.length msg <? 20)%nat eqn:Hshort; [discriminate |].
  apply Nat.ltb_ge in Hshort.
  destruct (Stun.readUInt16BE msg 0); [| discriminate].
  destruct (Stun.readUInt16BE msg 2); [| discriminate].
  destruct (Stun.readUInt32BE msg 4); [| discriminate].
  destruct (negb _); [discriminate |].
  destruct (Stun.parseAttributes _ _ _ _ _); [| discriminate].
  intros [= <-]. cbn [Stun.transactionId]. unfold Stun.subarray.
  rewrite length_firstn, length_skipn. lia.
Qed.

(** Every datagram the handler sends leaves through the listener's own
    socket, and there is at most one. *)
Lemma onMessage_sends_from_own_socket
    (port : Z) (localAddr : string) (msg : list Z) (rinfo : Stun.RemoteInfo)
    (sent : list Stun.Datagram) :
  Stun.onMessage port localAddr msg rinfo = Return sent ->
  (List.length sent <= 1)%nat
  /\ Forall (fun d => Stun.sourcePort d = port) sent.
Proof.
  unfold Stun.onMessage.
  destruct (Stun.parseSTUNMessage msg) as [stunMsg|];
    [| intros [= <-]; split; [simpl; lia | constructor]].
  destruct (negb _); [intros [= <-]; split; [simpl; lia | constructor] |].
  destruct (match Stun.attributes stunMsg !! Stun.CHANGE_REQUEST with
            | Some changeReq => Stun.parseChangeRequest changeReq
            | None => (false, false)
            end) as [changeIP changePort].
  destruct (Stun.buildSTUNResponse _ _ _ _ _) as [response|]; [| discriminate].
  destruct (_ =? port); intros [= <-];
    (split; [simpl; lia | repeat constructor]).
Qed.

(** A change-port request is answered with exactly one datagram, and it
    leaves from the port of the listener that received it, the primary
    listener included. *)
Lemma change_port_reply_leaves_from_listener
    (port : Z) (localAddr : string) (msg : list Z) (rinfo : Stun.RemoteInfo)
    (stunMsg : Stun.STUNMessage) (changeReq : list Z)
    (a b c d a' b' c' d' : Z) :
  Stun.parseSTUNMessage msg = Some stunMsg ->
  Stun.type stunMsg = Stun.BINDING_REQUEST ->
  Stun.attributes stunMsg !! Stun.CHANGE_REQUEST = Some changeReq ->
  Stun.parseChangeRequest changeReq = (false, true) ->
  Spec.isIPv4 (Stun.address rinfo) a b c d ->
  0 <= Stun.port rinfo < 65536 ->
  Spec.isIPv4 localAddr a' b' c' d' ->
  0 < port < 65535 ->
  exists response,
    Stun.onMessage port localAddr msg rinfo
    = Return [Stun.mkDatagram port (Stun.port rinfo) (Stun.address rinfo)
                response].
Proof.
  intros Hparse Htype Hattr Hflags Hremote Hrport Hlocal Hport.
  unfold Stun.onMessage. rewrite Hparse, Htype, Hattr, Hflags.
  cbn [negb Z.eqb Stun.BINDING_REQUEST Pos.eqb].
  assert (Hresp : 0 < Stun.chooseResponsePort port false true < 65536).
  { unfold Stun.chooseResponsePort, Stun.PRIMARY, Stun.SECONDARY.
    cbn [andb negb]. destruct (port =? 3478); lia. }
  rewrite (buildSTUNResponse_with_origin _ _ a b c d _ _ a' b' c' d');
    [| eapply parsed_transactionId_length; eassumption
     | assumption | assumption | assumption | assumption].
  eexists. destruct (_ =? port); reflexivity.
Qed.

(** C6.  The primary listener (port 3478) receives a binding request whose
    CHANGE-REQUEST has change-port set and change-IP clear.  It sends one
    response; the response announces port 3479 in RESPONSE-ORIGIN, and it
    leaves from port 3478, the listener's own, not from the alternate
    port. *)
Theorem primary_change_port_reply_from_own_port :
  exists response origin,
    Stun.onMessage Stun.PRIMARY "0.0.0.0"
      [0; 1; 0; 8; 0x21; 0x12; 0xa4; 0x42;
       1; 2; 3; 4; 5; 6; 7; 8; 9; 10; 11; 12;
       0; 3; 0; 4; 0; 0; 0; 2]
      (Stun.mkRemoteInfo "198.51.100.7" 54321)
    = Return [Stun.mkDatagram 3478 54321 "198.51.100.7" response]
    /\ Stun.parseSTUNMessage response ≫=
         (fun m => Stun.attributes m !! Stun.RESPONSE_ORIGIN) = Some origin
    /\ Stun.readUInt16BE origin 2 = Some Stun.SECONDARY
    /\ Stun.PRIMARY <> Stun.SECONDARY.
Proof.
  eexists. eexists.
  split; [vm_compute; reflexivity |].
  split; [vm_compute; reflexivity |].
  split; [reflexivity | discriminate].
Qed.

Example secondary_change_port_reply_from_own_port :
  exists response,
    Stun.onMessage Stun.SECONDARY "0.0.0.0"
      [0; 1; 0; 8; 0x21; 0x12; 0xa4; 0x42;
       1; 2; 3; 4; 5; 6; 7; 8; 9; 10; 11; 12;
       0; 3; 0; 4; 0; 0; 0; 2]
      (Stun.mkRemoteInfo "198.51.100.7" 54321)
    = Return [Stun.mkDatagram 3479 54321 "198.51.100.7" response].
Proof. eexists. vm_compute. reflexivity. Qed.

Example malformed_datagram_dropped :
  Stun.onMessage Stun.PRIMARY "0.0.0.0"
    [0; 1; 0; 0; 0x21; 0x12; 0xa4; 0x43;
     1; 2; 3; 4; 5; 6; 7; 8; 9; 10; 11; 12]
    (Stun.mkRemoteInfo "198.51.100.7" 54321)
  = Return [].
Proof. reflexivity. Qed.

(** ** The local probe *)

(** The promise keeps its first outcome. *)
Lemma settle_settled (st : Probe.State) (r r' : Try ProbeResult) :
  Probe.settled st = Some r -> Probe.settled (Probe.settle st r') = Some r.
Proof. intros Hst. unfold Probe.settle. rewrite Hst. exact Hst. Qed.

Lemma finishGathering_settled (st : Probe.State) (r : Try ProbeResult) :
  Probe.settled st = Some r ->
  Probe.settled (Probe.finishGathering st) = Some r.
Proof.
  intros Hst. unfold Probe.finishGathering.
  destruct (Probe.resolved st); [exact Hst |].
  destruct (extractIPInfo (Probe.candidates st));
    apply settle_settled; exact Hst.
Qed.

Lemma step_settled (st : Probe.State) (e : Probe.Event) (r : Try ProbeResult) :
  Probe.settled st = Some r -> Probe.settled (Probe.step st e) = Some r.
Proof.
  intros Hst. destruct e as [[c|] | [| |] | | | message]; cbn [Probe.step].
  - exact Hst.
  - apply finishGathering_settled, Hst.
  - exact Hst.
  - exact Hst.
  - apply finishGathering_settled, Hst.
  - apply finishGathering_settled, Hst.
  - unfold Probe.onCeiling. destruct (Probe.timeoutId st); [| exact Hst].
    destruct (negb (Probe.resolved st)); [| exact Hst].
    apply settle_settled. exact Hst.
  - unfold Probe.onSetupFailed. apply settle_settled. exact Hst.
Qed.

Lemma run_settled (events : list Probe.Event) :
  forall (st : Probe.State) (r : Try ProbeResult),
    Probe.settled st = Some r ->
    Probe.settled (fold_left Probe.step events st) = Some r.
Proof.
  induction events as [|e rest IH]; intros st r Hst; [exact Hst |].
  cbn [fold_left]. apply IH, step_settled, Hst.
Qed.

(** The set of successful servers holds its one label as soon as a
    server-reflexive candidate has arrived. *)
Lemma servers_after_candidate (seen : list RTCIceCandidate) (c : RTCIceCandidate) :
  (if ICE.isType ICE.srflx c
   then Probe.setAdd "STUN server (via ICE)"
          (if Spec.externalProduced seen then ["STUN server (via ICE)"] else [])
   else if Spec.externalProduced seen then ["STUN server (via ICE)"] else [])
  = if Spec.externalProduced (seen ++ [c]) then ["STUN server (via ICE)"]
    else [].
Proof.
  unfold Spec.externalProduced. rewrite existsb_app. cbn [existsb].
  destruct (ICE.isType ICE.srflx c), (existsb (ICE.isType ICE.srflx) seen);
    reflexivity.
Qed.

(** A run that has not finished yet is decided by its first ending
    event. *)
Lemma run_first_decisive (events : list Probe.Event) :
  forall (seen : list RTCIceCandidate) (timeout : Z) (waits : list Z),
    Probe.settled
      (fold_left Probe.step events
         (Probe.mkState seen
            (if Spec.externalProduced seen then ["STUN server (via ICE)"]
             else [])
            false (Some timeout) waits false None))
    = match Spec.firstDecisive seen events with
      | Some (seen', e) => Some (Spec.verdict seen' e)
      | None => None
      end.
Proof.
  induction events as [|e rest IH]; intros seen timeout waits;
    [reflexivity |].
  cbn [fold_left Spec.firstDecisive].
  destruct e as [[c|] | [| |] | | | message]; cbn [Probe.step].
  - unfold Probe.onicecandidate.
    cbn [Probe.candidates Probe.successfulServers Probe.resolved
         Probe.timeoutId Probe.waits Probe.closed Probe.settled].
    rewrite servers_after_candidate. apply IH.
  - apply run_settled. unfold Probe.onicecandidate, Probe.finishGathering.
    cbn [Probe.candidates Probe.successfulServers Probe.resolved
         Probe.timeoutId Probe.waits Probe.closed Probe.settled Spec.verdict].
    destruct (extractIPInfo seen); reflexivity.
  - apply IH.
  - apply IH.
  - apply run_settled.
    unfold Probe.onicegatheringstatechange, Probe.finishGathering.
    cbn [Probe.candidates Probe.successfulServers Probe.resolved
         Probe.timeoutId Probe.waits Probe.closed Probe.settled Spec.verdict].
    destruct (extractIPInfo seen); reflexivity.
  - apply run_settled. unfold Probe.finishGathering.
    cbn [Probe.candidates Probe.successfulServers Probe.resolved
         Probe.timeoutId Probe.waits Probe.closed Probe.settled Spec.verdict].
    destruct (extractIPInfo seen); reflexivity.
  - apply run_settled. reflexivity.
  - apply run_settled. reflexivity.
Qed.

Lemma detectWithMultipleServers_first_decisive
    (timeout : Z) (events : list Probe.Event) :
  detectWithMultipleServers timeout events
  = match Spec.firstDecisive [] events with
    | Some (seen, e) => Some (Spec.verdict seen e)
    | None => None
    end.
Proof.
  unfold detectWithMultipleServers, Probe.run, Probe.start.
  apply (run_first_decisive events [] timeout []).
Qed.

(** [extractIPInfo] throws exactly when no host candidate is on record. *)
Lemma extractIPInfo_no_host (seen : list RTCIceCandidate) :
  Spec.hostProduced seen = false ->
  extractIPInfo seen = Throw "No host candidate found".
Proof.
  intros Hhost. unfold extractIPInfo.
  destruct (List.find (ICE.isType ICE.host) seen) as [c|] eqn:Hfind;
    [| reflexivity].
  apply find_some in Hfind as [Hin Hc].
  unfold Spec.hostProduced in Hhost.
  assert (existsb (ICE.isType ICE.host) seen = true)
    by (apply existsb_exists; eauto).
  congruence.
Qed.

Lemma extractIPInfo_host (seen : list RTCIceCandidate) :
  Spec.hostProduced seen = true ->
  exists ipInfo, extractIPInfo seen = Return ipInfo.
Proof.
  intros Hhost. unfold extractIPInfo.
  destruct (List.find (ICE.isType ICE.host) seen) as [c|] eqn:Hfind;
    [eauto |].
  unfold Spec.hostProduced in Hhost.
  apply existsb_exists in Hhost as (c & Hin & Hc).
  pose proof (find_none _ _ Hfind c Hin). congruence.
Qed.

(** The events [Spec.firstDecisive] stops at. *)
Lemma firstDecisive_kind (events : list Probe.Event) :
  forall (seen seen' : list RTCIceCandidate) (e : Probe.Event),
    Spec.firstDecisive seen events = Some (seen', e) ->
    Spec.finishes e = true \/ e = Probe.CeilingElapsed
    \/ exists message, e = Probe.SetupFailed message.
Proof.
  induction events as [|e0 rest IH]; intros seen seen' e Hfirst;
    [discriminate |].
  cbn [Spec.firstDecisive] in Hfirst.
  destruct e0 as [[c|] | [| |] | | | message];
    try (injection Hfirst as <- <-); eauto.
Qed.

(** What [detectNAT] gives, by the first ending event of the run. *)
Lemma detectNAT_classified (hasRTCPeerConnection : bool)
    (events : list Probe.Event) :
  (hasRTCPeerConnection = false
   /\ detectNAT hasRTCPeerConnection events = Some (Throw "BROWSER_UNSUPPORTED"))
  \/ (hasRTCPeerConnection = true
      /\ Spec.firstDecisive [] events = None
      /\ detectNAT hasRTCPeerConnection events = None)
  \/ (hasRTCPeerConnection = true
      /\ exists seen e,
           Spec.firstDecisive [] events = Some (seen, e)
           /\ ((e = Probe.CeilingElapsed
                /\ detectNAT hasRTCPeerConnection events
                   = Some (Throw "TIMEOUT"))
               \/ (exists message,
                     e = Probe.SetupFailed message
                     /\ JS.includes "timeout" message = true
                     /\ detectNAT hasRTCPeerConnection events
                        = Some (Throw "TIMEOUT"))
               \/ (exists message,
                     e = Probe.SetupFailed message
                     /\ JS.includes "timeout" message = false
                     /\ detectNAT hasRTCPeerConnection events
                        = Some (Throw "STUN_UNREACHABLE"))
               \/ (Spec.finishes e = true
                   /\ Spec.hostProduced seen = false
                   /\ detectNAT hasRTCPeerConnection events
                      = Some (Throw "STUN_UNREACHABLE"))
               \/ (Spec.finishes e = true
                   /\ Spec.hostProduced seen = true
                   /\ exists r,
                        detectNAT hasRTCPeerConnection events
                        = Some (Return r)
                        /\ br_portMapping r = analyzePortMapping seen
                        /\ br_confidence r
                           = confidenceOf (analyzePortMapping seen)))).
Proof.
  destruct hasRTCPeerConnection; [right | left; split; reflexivity].
  unfold detectNAT. cbn [negb].
  rewrite detectWithMultipleServers_first_decisive.
  destruct (Spec.firstDecisive [] events) as [[seen e]|] eqn:Hfirst;
    [right | left; repeat split; reflexivity].
  split; [reflexivity |]. exists seen, e. split; [reflexivity |].
  destruct (firstDecisive_kind _ _ _ _ Hfirst) as [Hfin | [-> | [message ->]]].
  - right. right. right.
    assert (Hverdict : Spec.verdict seen e
              = match extractIPInfo seen with
                | Throw message => Throw message
                | Return ipInfo =>
                    Return
                      {| pr_ipInfo := ipInfo;
                         pr_portMapping := analyzePortMapping seen;
                         pr_successfulServers :=
                           if Spec.externalProduced seen
                           then ["STUN server (via ICE)"] else [];
                         pr_confidence :=
                           confidenceOf (analyzePortMapping seen);
                         pr_confidenceReason :=
                           confidenceReasonOf (analyzePortMapping seen) |}
                end)
      by (destruct e as [[c|] | [| |] | | | message];
          try discriminate Hfin; reflexivity).
    rewrite Hverdict.
    destruct (Spec.hostProduced seen) eqn:Hhost.
    + right. destruct (extractIPInfo_host seen Hhost) as [ipInfo ->].
      split; [exact Hfin |]. split; [reflexivity |].
      eexists. split; [reflexivity |]. split; reflexivity.
    + left. rewrite (extractIPInfo_no_host seen Hhost).
      split; [exact Hfin |]. split; reflexivity.
  - left. split; reflexivity.
  - cbn [Spec.verdict].
    destruct (JS.includes "timeout" message) eqn:Hmsg.
    + right. left. exists message.
      split; [reflexivity |]. split; [exact Hmsg | reflexivity].
    + right. right. left. exists message.
      split; [reflexivity |]. split; [exact Hmsg |].
      destruct (JS.includes "No host candidate" message); reflexivity.
Qed.




Example probe_times_out_with_host_on_record :
  detectNAT true
    [Probe.IceCandidate
       (Some (ICE.mkCandidate
                "candidate:1 1 UDP 2130706431 192.168.1.5 54321 typ host"
                (Some ICE.host) (Some "192.168.1.5") None (Some 54321)));
     Probe.GatheringStateChange Probe.gathering;
     Probe.CeilingElapsed;
     Probe.IceCandidate None]
  = Some (Throw "TIMEOUT").
Proof. reflexivity. Qed.

Example probe_unreachable_without_host :
  detectNAT true
    [Probe.IceCandidate
       (Some (ICE.mkCandidate
                "candidate:2 1 UDP 1694498815 203.0.113.10 40000 typ srflx"
                (Some ICE.srflx) (Some "203.0.113.10") None (Some 40000)));
     Probe.IceCandidate None]
  = Some (Throw "STUN_UNREACHABLE").
Proof. reflexivity. Qed.

(** ** Confidence of a completed detection *)

(** On the basic path the confidence is "high" only with at least two
    valid observed mappings in the result. *)
Lemma basic_high_confidence_needs_two_mappings
    (hasRTCPeerConnection : bool) (events : list Probe.Event) (fetch : Fetch)
    (startedAt completedAt : Z) (result : DetectionResult) :
  runDetection false hasRTCPeerConnection events fetch startedAt completedAt
  = Some result ->
  confidence result = Some high ->
  exists observed,
    portMapping result = Some observed
    /\ (2 <= List.length (observedMappings observed))%nat
    /\ exists seen, observedMappings observed = Spec.validMappings seen.
Proof.
  unfold runDetection.
  destruct (detectNAT_classified hasRTCPeerConnection events)
    as [[Hrtc Hout]
       | [(Hrtc & Hfirst & Hout)
         | (Hrtc & seen & e & Hfirst &
            [[He Hout]
            | [(message & He & Hmsg & Hout)
              | [(message & He & Hmsg & Hout)
                | [(Hfin & Hhost & Hout)
                  | (Hfin & Hhost & r & Hout & Hpm & Hconf)]]]])]];
    rewrite Hout; try discriminate;
    intros [= <-]; cbn [confidence portMapping]; try discriminate.
  intros Hhigh. exists (br_portMapping r). split; [reflexivity |].
  rewrite Hconf in Hhigh. injection Hhigh as Hhigh.
  unfold confidenceOf in Hhigh. rewrite Hpm.
  split.
  - destruct (Nat.leb_spec 2 (List.length (observedMappings (analyzePortMapping seen))));
      [assumption | discriminate].
  - exists seen. apply analyzePortMapping_obs.
Qed.

(** C7.  On the advanced path a run that observed a single mapping (one
    host candidate, one server-reflexive candidate, then the adaptive wait
    elapses) completes with confidence "high": the route's constant
    confidence is copied into the result next to a measurement record of
    one mapping. *)
Theorem advanced_high_confidence_with_one_mapping :
  exists result observed,
    runDetection true true
      [Probe.IceCandidate
         (Some (ICE.mkCandidate
                  "candidate:1 1 UDP 2130706431 192.168.1.5 54321 typ host"
                  (Some ICE.host) (Some "192.168.1.5") None (Some 54321)));
       Probe.IceCandidate
         (Some (ICE.mkCandidate
                  "candidate:2 1 UDP 1694498815 203.0.113.10 40000 typ srflx"
                  (Some ICE.srflx) (Some "203.0.113.10") None (Some 40000)));
       Probe.WaitElapsed]
      routeFetch 1000 8500
    = Some result
    /\ state result = SUCCESS
    /\ detectionMethod result = Some advanced
    /\ natType result = Some PORT_RESTRICTED_CONE
    /\ confidence result = Some high
    /\ portMapping result = Some observed
    /\ observedMappings observed = [mkMapping "203.0.113.10" 40000]
    /\ (List.length (observedMappings observed) < 2)%nat.
Proof.
  eexists. eexists.
  split; [vm_compute; reflexivity |].
  cbn [state detectionMethod natType confidence portMapping observedMappings
       List.length].
  repeat split. cbn [observedMappings List.length]. lia.
Qed.

(** The same run on the basic path is reported with low confidence. *)
Example basic_low_confidence_with_one_mapping :
  exists result,
    runDetection false true
      [Probe.IceCandidate
         (Some (ICE.mkCandidate
                  "candidate:1 1 UDP 2130706431 192.168.1.5 54321 typ host"
                  (Some ICE.host) (Some "192.168.1.5") None (Some 54321)));
       Probe.IceCandidate
         (Some (ICE.mkCandidate
                  "candidate:2 1 UDP 1694498815 203.0.113.10 40000 typ srflx"
                  (Some ICE.srflx) (Some "203.0.113.10") None (Some 40000)));
       Probe.WaitElapsed]
      routeFetch 1000 8500
    = Some result
    /\ natType result = Some CONE_NAT
    /\ confidence result = Some low.
Proof. eexists. split; [vm_compute; reflexivity | split; reflexivity]. Qed.

(** The scenarios of the specification on the basic path. *)
Example scenario_cone_high_confidence :
  let srflx p :=
    Probe.IceCandidate
      (Some (ICE.mkCandidate EmptyString (Some ICE.srflx) (Some "203.0.113.10") None
               (Some p))) in
  exists result,
    runDetection false true
      [Probe.IceCandidate
         (Some (ICE.mkCandidate EmptyString (Some ICE.host) (Some "192.168.1.5") None
                  (Some 54321)));
       srflx 40000; srflx 40000; Probe.IceCandidate None]
      routeFetch 0 1
    = Some result
    /\ natType result = Some CONE_NAT
    /\ confidence result = Some high.
Proof. eexists. split; [vm_compute; reflexivity | split; reflexivity]. Qed.

Example scenario_symmetric_high_confidence :
  let srflx p :=
    Probe.IceCandidate
      (Some (ICE.mkCandidate EmptyString (Some ICE.srflx) (Some "203.0.113.10") None
               (Some p))) in
  exists result,
    runDetection false true
      [Probe.IceCandidate
         (Some (ICE.mkCandidate EmptyString (Some ICE.host) (Some "192.168.1.5") None
                  (Some 54321)));
       srflx 40000; srflx 40001; Probe.IceCandidate None]
      routeFetch 0 1
    = Some result
    /\ natType result = Some SYMMETRIC
    /\ confidence result = Some high.
Proof. eexists. split; [vm_compute; reflexivity | split; reflexivity]. Qed.

(* ===================================================================== *)
(** * Further properties of the code *)
(* ===================================================================== *)

(** ** Address ranges (types.ts) *)






(** An address that does not split into exactly four parts, or one of
    whose parts is not a number, is neither private nor carrier-grade. *)
Theorem range_checks_reject_malformed (addr : string) :
  List.length (octetsOf addr) <> 4%nat \/ JS.someNaN (octetsOf addr) = true ->
  isPrivateIP addr = false /\ isCGNATIP addr = false.
Proof.
  intros Hbad. unfold isPrivateIP, isCGNATIP.
  assert (Hguard : negb (List.length (octetsOf addr) =? 4)%nat
                   || JS.someNaN (octetsOf addr) = true).
  { destruct Hbad as [Hlen | Hnan].
    - apply Nat.eqb_neq in Hlen. rewrite Hlen. reflexivity.
    - rewrite Hnan. apply orb_true_r. }
  rewrite Hguard. split; reflexivity.
Qed.

(** An mDNS name and a three-part address. *)
Lemma range_checks_reject_malformed_witness :
  (isPrivateIP "10.0.0" = false /\ isCGNATIP "10.0.0" = false)
  /\ (isPrivateIP "192.168.1.local" = false
      /\ isCGNATIP "192.168.1.local" = false).
Proof.
  split.
  - apply range_checks_reject_malformed. left. vm_compute. discriminate.
  - apply range_checks_reject_malformed. right. reflexivity.
Defined.


(** ** The classifier (nat-classifier.ts) *)

(** X4.  [classifyNAT] answers CONE_NAT exactly when one and only one of
    the two address flags is set and both consistency facts hold; it
    answers one of NO_NAT, MULTIPLE_LAYERS, SYMMETRIC and CONE_NAT and
    never a cone subtype. *)
Theorem classifyNAT_cone_and_range
    (ipInfo : IPAddressInfo) (portMapping : PortMappingInfo) :
  (classifyNAT ipInfo portMapping = CONE_NAT
   <-> isBehindLocalNAT ipInfo <> isBehindCGNAT ipInfo
       /\ isPortConsistent portMapping = true
       /\ isIPConsistent portMapping = true)
  /\ classifyNAT ipInfo portMapping <> FULL_CONE
  /\ classifyNAT ipInfo portMapping <> RESTRICTED_CONE
  /\ classifyNAT ipInfo portMapping <> PORT_RESTRICTED_CONE.
Proof.
  rewrite classifyNAT_flags.
  destruct (isBehindLocalNAT ipInfo), (isBehindCGNAT ipInfo),
    (isPortConsistent portMapping), (isIPConsistent portMapping);
    cbn [andb]; (split; [split; [intros H; try discriminate H;
                                 repeat split; discriminate
                                | intros (Hne & Hp & Hi);
                                  try discriminate; try reflexivity;
                                  exfalso; apply Hne; reflexivity]
                        | repeat split; discriminate]).
Qed.

(** ** The mapping analyzer (webrtc-detector.ts) *)

Lemma validMappings_Permutation (l l' : list RTCIceCandidate) :
  Permutation l l' ->
  Permutation (Spec.validMappings l) (Spec.validMappings l').
Proof.
  induction 1 as [| x l l' _ IH | x y l | l l' l'' _ IH _ IH'].
  - constructor.
  - cbn [Spec.validMappings].
    destruct (ICE.type x) as [[| | |]|]; try exact IH.
    destruct (Spec.externalAddress x) as [[|a s]|]; try exact IH.
    destruct (ICE.port x) as [p|]; try exact IH.
    destruct (p =? 0); [exact IH | constructor; exact IH].
  - cbn [Spec.validMappings].
    destruct (ICE.type x) as [[| | |]|], (ICE.type y) as [[| | |]|];
      try reflexivity;
      destruct (Spec.externalAddress x) as [[|a s]|],
               (Spec.externalAddress y) as [[|a' s']|];
      try reflexivity;
      destruct (ICE.port x) as [p|], (ICE.port y) as [p'|];
      try reflexivity;
      destruct (p =? 0), (p' =? 0); try reflexivity.
    apply perm_swap.
  - etransitivity; eassumption.
Qed.

(** X5.  The order in which the candidates arrived does not matter to the
    analyzer: two records that are permutations of each other get the
    same two consistency facts and the same confidence, and their
    observed mappings are permutations of each other. *)
Theorem analyzePortMapping_order_irrelevant (l l' : list RTCIceCandidate) :
  Permutation l l' ->
  isPortConsistent (analyzePortMapping l)
  = isPortConsistent (analyzePortMapping l')
  /\ isIPConsistent (analyzePortMapping l)
     = isIPConsistent (analyzePortMapping l')
  /\ confidenceOf (analyzePortMapping l) = confidenceOf (analyzePortMapping l')
  /\ Permutation (observedMappings (analyzePortMapping l))
       (observedMappings (analyzePortMapping l')).
Proof.
  intros Hperm. apply validMappings_Permutation in Hperm.
  unfold confidenceOf. rewrite !analyzePortMapping_obs.
  unfold analyzePortMapping. rewrite !mappings_are_validMappings.
  pose proof (Permutation_length Hperm) as Hlen.
  assert (Hports : (list_to_set (map port (Spec.validMappings l)) : gset Z)
                   = list_to_set (map port (Spec.validMappings l')))
    by (apply list_to_set_perm_L, Permutation_map, Hperm).
  assert (Hips : (list_to_set (map ip (Spec.validMappings l)) : gset string)
                 = list_to_set (map ip (Spec.validMappings l')))
    by (apply list_to_set_perm_L, Permutation_map, Hperm).
  rewrite Hports, Hips, Hlen.
  destruct (List.length (Spec.validMappings l') =? 0)%nat;
    [| destruct (List.length (Spec.validMappings l') =? 1)%nat];
    cbn [isPortConsistent isIPConsistent];
    (split; [reflexivity |]); (split; [reflexivity |]);
    (split; [reflexivity | exact Hperm]).
Qed.

Lemma analyzePortMapping_order_irrelevant_witness :
  let srflx p := ICE.mkCandidate EmptyString (Some ICE.srflx)
                   (Some "203.0.113.10") None (Some p) in
  let host := ICE.mkCandidate EmptyString (Some ICE.host)
                (Some "192.168.1.5") None (Some 54321) in
  isPortConsistent (analyzePortMapping [host; srflx 40000; srflx 40001])
  = isPortConsistent (analyzePortMapping [srflx 40001; host; srflx 40000])
  /\ isIPConsistent (analyzePortMapping [host; srflx 40000; srflx 40001])
     = isIPConsistent (analyzePortMapping [srflx 40001; host; srflx 40000])
  /\ confidenceOf (analyzePortMapping [host; srflx 40000; srflx 40001])
     = confidenceOf (analyzePortMapping [srflx 40001; host; srflx 40000])
  /\ Permutation
       (observedMappings (analyzePortMapping [host; srflx 40000; srflx 40001]))
       (observedMappings (analyzePortMapping [srflx 40001; host; srflx 40000])).
Proof.
  cbv zeta. apply analyzePortMapping_order_irrelevant.
  eapply perm_trans; [apply perm_skip, perm_swap | apply perm_swap].
Defined.

(** ** The probe (webrtc-detector.ts) *)

Lemma settle_fields (st : Probe.State) (r : Try ProbeResult) :
  Probe.candidates (Probe.settle st r) = Probe.candidates st
  /\ Probe.resolved (Probe.settle st r) = Probe.resolved st
  /\ Probe.timeoutId (Probe.settle st r) = Probe.timeoutId st
  /\ Probe.waits (Probe.settle st r) = Probe.waits st
  /\ Probe.closed (Probe.settle st r) = Probe.closed st
  /\ Probe.settled (Probe.settle st r) <> None.
Proof.
  unfold Probe.settle. destruct (Probe.settled st) eqn:Hs; cbn;
    repeat split; congruence.
Qed.

Ltac probe_fields :=
  cbn [Probe.candidates Probe.resolved Probe.timeoutId Probe.waits
       Probe.closed Probe.settled] in *.

Ltac settle_consistent :=
  unfold Shape.probeConsistent in *;
  match goal with
  | |- context [Probe.settle ?s ?r] =>
      destruct (settle_fields s r) as (-> & -> & -> & -> & -> & ?)
  end;
  probe_fields; intuition (try congruence; try discriminate).

Lemma finishGathering_consistent (st : Probe.State) :
  Shape.probeConsistent st -> Shape.probeConsistent (Probe.finishGathering st).
Proof.
  intros Hst. unfold Probe.finishGathering.
  destruct (Probe.resolved st) eqn:Hres;
    [unfold Shape.probeConsistent in *; intuition congruence |].
  destruct (extractIPInfo (Probe.candidates st)); settle_consistent.
Qed.

Lemma srflx_count_positive (l : list RTCIceCandidate) :
  (1 <=? List.length (List.filter (ICE.isType ICE.srflx) l))%nat
  = Spec.externalProduced l.
Proof.
  unfold Spec.externalProduced.
  induction l as [|x l IH]; [reflexivity |].
  cbn [List.filter existsb].
  destruct (ICE.isType ICE.srflx x); [reflexivity | exact IH].
Qed.

Lemma step_consistent (st : Probe.State) (e : Probe.Event) :
  Shape.probeConsistent st -> Shape.probeConsistent (Probe.step st e).
Proof.
  intros Hst. destruct e as [[c|] | [| |] | | | message]; cbn [Probe.step];
    try (apply finishGathering_consistent; exact Hst); try exact Hst.
  - (* a candidate arrives *)
    destruct Hst as (Hsettled & Hresolved & Hwaits & Hstarted).
    unfold Probe.onicecandidate, Shape.probeConsistent. probe_fields.
    split; [exact Hsettled |]. split; [exact Hresolved |].
    change (existsb (ICE.isType ICE.host) (Probe.candidates st ++ [c]))
      with (Spec.hostProduced (Probe.candidates st ++ [c])).
    rewrite srflx_count_positive.
    destruct (Spec.hostProduced (Probe.candidates st ++ [c])
              && Spec.externalProduced (Probe.candidates st ++ [c])) eqn:Hboth.
    + split.
      * apply Forall_app. split; [exact Hwaits |].
        constructor; [| constructor]. unfold Probe.waitTime.
        repeat match goal with
          | |- context [if ?b then _ else _] => destruct b
          end; tauto.
      * split; [| discriminate].
        intros Hnil. apply app_eq_nil in Hnil as [_ Hnil]. discriminate Hnil.
    + split; [exact Hwaits |]. split; [reflexivity |].
      intros _. apply Hstarted.
      unfold Spec.hostProduced, Spec.externalProduced in *.
      rewrite !existsb_app in Hboth. cbn [existsb] in Hboth.
      destruct (existsb (ICE.isType ICE.host) (Probe.candidates st)),
        (existsb (ICE.isType ICE.srflx) (Probe.candidates st));
        try reflexivity.
      rewrite !orb_true_l in Hboth. discriminate Hboth.
  - (* the ceiling elapses *)
    unfold Probe.onCeiling.
    destruct (Probe.timeoutId st) eqn:Hid; [| exact Hst].
    destruct (negb (Probe.resolved st)) eqn:Hres; [| exact Hst].
    settle_consistent.
  - (* the set-up fails *)
    unfold Probe.onSetupFailed. settle_consistent.
Qed.

Lemma fold_step_consistent (events : list Probe.Event) :
  forall st, Shape.probeConsistent st ->
             Shape.probeConsistent (fold_left Probe.step events st).
Proof.
  induction events as [|e rest IH]; intros st Hst; [exact Hst |].
  cbn [fold_left]. apply IH, step_consistent, Hst.
Qed.

(** X6.  After any sequence of callbacks: once the promise has settled the
    connection is closed and the ceiling timer is no longer armed;
    [resolved] is set only when there is an outcome; every adaptive wait
    started is 5000, 2000 or 1000 ms; and a wait has been started exactly
    when a host candidate and a server-reflexive candidate are both on
    record. *)
Theorem probe_run_consistent (timeout : Z) (events : list Probe.Event) :
  (Probe.settled (Probe.run timeout events) <> None ->
   Probe.closed (Probe.run timeout events) = true
   /\ Probe.timeoutId (Probe.run timeout events) = None)
  /\ (Probe.resolved (Probe.run timeout events) = true ->
      Probe.settled (Probe.run timeout events) <> None)
  /\ Forall (fun w => w = 5000 \/ w = 2000 \/ w = 1000)
       (Probe.waits (Probe.run timeout events))
  /\ (Probe.waits (Probe.run timeout events) = []
      <-> Spec.hostProduced (Probe.candidates (Probe.run timeout events))
          && Spec.externalProduced
               (Probe.candidates (Probe.run timeout events)) = false).
Proof.
  change (Shape.probeConsistent (Probe.run timeout events)).
  apply fold_step_consistent. unfold Shape.probeConsistent, Probe.start.
  probe_fields.
  split; [intros Hne; exfalso; apply Hne; reflexivity |].
  split; [discriminate |]. split; [constructor |]. split; reflexivity.
Qed.

Lemma settle_candidates (st : Probe.State) (r : Try ProbeResult) :
  Probe.candidates (Probe.settle st r) = Probe.candidates st.
Proof. apply settle_fields. Qed.

Lemma step_candidates (st : Probe.State) (e : Probe.Event) :
  Probe.candidates (Probe.step st e)
  = Probe.candidates st ++ Spec.candidatesOf [e].
Proof.
  assert (Hfinish : Probe.candidates (Probe.finishGathering st)
                    = Probe.candidates st).
  { unfold Probe.finishGathering. destruct (Probe.resolved st); [reflexivity |].
    destruct (extractIPInfo (Probe.candidates st));
      rewrite settle_candidates; reflexivity. }
  destruct e as [[c|] | [| |] | | | message];
    cbn [Probe.step Spec.candidatesOf Probe.onicegatheringstatechange];
    rewrite ?app_nil_r; try exact Hfinish; try reflexivity.
  - unfold Probe.onCeiling. destruct (Probe.timeoutId st); [| reflexivity].
    destruct (negb (Probe.resolved st));
      [rewrite settle_candidates |]; reflexivity.
  - unfold Probe.onSetupFailed. rewrite settle_candidates. reflexivity.
Qed.

Lemma candidatesOf_app (events later : list Probe.Event) :
  Spec.candidatesOf (events ++ later)
  = Spec.candidatesOf events ++ Spec.candidatesOf later.
Proof.
  induction events as [|e rest IH]; [reflexivity |].
  destruct e as [[c|] | [| |] | | | message];
    cbn [app Spec.candidatesOf]; rewrite IH; reflexivity.
Qed.

Lemma fold_step_candidates (events : list Probe.Event) :
  forall st,
    Probe.candidates (fold_left Probe.step events st)
    = Probe.candidates st ++ Spec.candidatesOf events.
Proof.
  induction events as [|e rest IH]; intros st;
    [cbn; rewrite app_nil_r; reflexivity |].
  cbn [fold_left]. rewrite IH, step_candidates, <- app_assoc.
  rewrite <- candidatesOf_app. reflexivity.
Qed.

(** X7.  The record of a run holds every candidate the connection
    delivered, in arrival order, also those that arrive after the promise
    has settled; nothing else is ever put on record. *)
Theorem probe_records_every_candidate (timeout : Z) (events : list Probe.Event) :
  Probe.candidates (Probe.run timeout events) = Spec.candidatesOf events.
Proof. unfold Probe.run. rewrite fold_step_candidates. reflexivity. Qed.

(** X8.  The promise of the probe settles once: when a run has an outcome,
    no later callback (a late candidate, a late timer, a late state change)
    changes it. *)
Theorem probe_outcome_stable
    (timeout : Z) (events later : list Probe.Event) (r : Try ProbeResult) :
  detectWithMultipleServers timeout events = Some r ->
  detectWithMultipleServers timeout (events ++ later) = Some r.
Proof.
  unfold detectWithMultipleServers, Probe.run. intros Hr.
  rewrite fold_left_app. apply run_settled. exact Hr.
Qed.

(** The ceiling rejects; an adaptive wait and a candidate that come after
    it do not turn the rejection into a result. *)
Lemma probe_outcome_stable_witness :
  detectWithMultipleServers 15000
    ([Probe.IceCandidate
        (Some (ICE.mkCandidate EmptyString (Some ICE.host)
                 (Some "192.168.1.5") None (Some 54321)));
      Probe.CeilingElapsed]
     ++ [Probe.IceCandidate
           (Some (ICE.mkCandidate EmptyString (Some ICE.srflx)
                    (Some "203.0.113.10") None (Some 40000)));
         Probe.WaitElapsed])
  = Some (Throw "Detection timeout").
Proof. apply probe_outcome_stable. reflexivity. Defined.


(** ** Basic detection end to end (webrtc-detector.ts, the hook) *)

Lemma no_srflx_find (seen : list RTCIceCandidate) :
  Spec.externalProduced seen = false ->
  List.find (ICE.isType ICE.srflx) seen = None.
Proof.
  unfold Spec.externalProduced.
  induction seen as [|x l IH]; [reflexivity |].
  cbn [existsb List.find]. destruct (ICE.isType ICE.srflx x);
    [discriminate | exact IH].
Qed.

Lemma no_srflx_analysis (seen : list RTCIceCandidate) :
  Spec.externalProduced seen = false ->
  analyzePortMapping seen = mkPortMappingInfo false false [].
Proof.
  intros Hnone. unfold analyzePortMapping.
  replace (List.filter (ICE.isType ICE.srflx) seen) with (@nil RTCIceCandidate);
    [reflexivity |].
  unfold Spec.externalProduced in Hnone.
  induction seen as [|x l IH]; [reflexivity |].
  cbn [existsb List.filter] in *. destruct (ICE.isType ICE.srflx x);
    [discriminate | apply IH, Hnone].
Qed.

Lemma verdict_of_finish (seen : list RTCIceCandidate) (e : Probe.Event) :
  Spec.finishes e = true ->
  Spec.verdict seen e
  = match extractIPInfo seen with
    | Throw message => Throw message
    | Return ipInfo =>
        Return
          {| pr_ipInfo := ipInfo;
             pr_portMapping := analyzePortMapping seen;
             pr_successfulServers :=
               if Spec.externalProduced seen
               then ["STUN server (via ICE)"] else [];
             pr_confidence := confidenceOf (analyzePortMapping seen);
             pr_confidenceReason :=
               confidenceReasonOf (analyzePortMapping seen) |}
    end.
Proof.
  intros Hfin. destruct e as [[c|] | [| |] | | | message];
    try discriminate Hfin; reflexivity.
Qed.

(** X9.  A basic run that finishes gathering with a host candidate on
    record and no server-reflexive candidate succeeds with low confidence
    and a public address of [null]; its NAT type is SYMMETRIC when the
    local address is private (or an mDNS name) and NO_NAT otherwise, never
    a cone type and never MULTIPLE_LAYERS. *)
Theorem basic_run_without_external_mapping
    (events : list Probe.Event) (fetch : Fetch) (startedAt completedAt : Z)
    (seen : list RTCIceCandidate) (e : Probe.Event) :
  Spec.firstDecisive [] events = Some (seen, e) ->
  Spec.finishes e = true ->
  Spec.hostProduced seen = true ->
  Spec.externalProduced seen = false ->
  exists result info,
    runDetection false true events fetch startedAt completedAt = Some result
    /\ state result = SUCCESS
    /\ ipInfo result = Some info
    /\ publicIP info = None
    /\ isBehindCGNAT info = false
    /\ confidence result = Some low
    /\ natType result
       = Some (if isBehindLocalNAT info then SYMMETRIC else NO_NAT).
Proof.
  intros Hfirst Hfin Hhost Hnone.
  unfold runDetection, detectNAT. cbn [negb].
  rewrite detectWithMultipleServers_first_decisive, Hfirst.
  rewrite (verdict_of_finish seen e Hfin).
  destruct (extractIPInfo_host seen Hhost) as [info Hinfo]. rewrite Hinfo.
  rewrite (no_srflx_analysis seen Hnone).
  assert (Hpublic : publicIP info = None /\ isBehindCGNAT info = false).
  { unfold extractIPInfo in Hinfo. rewrite (no_srflx_find seen Hnone) in Hinfo.
    destruct (List.find (ICE.isType ICE.host) seen); [| discriminate].
    injection Hinfo as <-. split; reflexivity. }
  destruct Hpublic as [Hip Hcg].
  eexists. exists info.
  split; [reflexivity |].
  cbn [state ipInfo confidence natType br_ipInfo br_portMapping br_confidence
       pr_ipInfo pr_portMapping pr_confidence].
  repeat (split; [first [reflexivity | assumption] |]).
  rewrite classifyNAT_flags, Hcg. cbn [isPortConsistent andb].
  destruct (isBehindLocalNAT info); reflexivity.
Qed.

(** A host with a public address and no server-reflexive candidate. *)
Lemma basic_run_without_external_mapping_witness :
  exists result info,
    runDetection false true
      [Probe.IceCandidate
         (Some (ICE.mkCandidate
                  "candidate:1 1 UDP 2130706431 8.8.8.8 54321 typ host"
                  (Some ICE.host) (Some "8.8.8.8") None (Some 54321)));
       Probe.GatheringStateChange Probe.complete]
      routeFetch 1000 2500
    = Some result
    /\ state result = SUCCESS
    /\ ipInfo result = Some info
    /\ publicIP info = None
    /\ isBehindCGNAT info = false
    /\ confidence result = Some low
    /\ natType result
       = Some (if isBehindLocalNAT info then SYMMETRIC else NO_NAT).
Proof.
  eapply basic_run_without_external_mapping; reflexivity.
Defined.

(** X10.  On the basic path a failed run is stored with one of three
    errors: TIMEOUT and STUN_UNREACHABLE keep their kind, while the
    failure "BROWSER_UNSUPPORTED" of [detectNAT] is stored with the kind
    UNKNOWN (its message contains neither "unsupported" nor
    "RTCPeerConnection"); the kinds BROWSER_UNSUPPORTED and
    PERMISSION_DENIED are never stored. *)
Theorem basic_error_kinds
    (hasRTCPeerConnection : bool) (events : list Probe.Event) (fetch : Fetch)
    (startedAt completedAt : Z) (result : DetectionResult) :
  runDetection false hasRTCPeerConnection events fetch startedAt completedAt
  = Some result ->
  state result = ERROR ->
  (hasRTCPeerConnection = false
   /\ error result = Some (UNKNOWN, "BROWSER_UNSUPPORTED"))
  \/ (hasRTCPeerConnection = true
      /\ (error result = Some (TIMEOUT, "TIMEOUT")
          \/ error result = Some (STUN_UNREACHABLE, "STUN_UNREACHABLE"))).
Proof.
  unfold runDetection.
  destruct (detectNAT_classified hasRTCPeerConnection events)
    as [[Hrtc Hout]
       | [(Hrtc & Hfirst & Hout)
         | (Hrtc & seen & e & Hfirst &
            [[He Hout]
            | [(message & He & Hmsg & Hout)
              | [(message & He & Hmsg & Hout)
                | [(Hfin & Hhost & Hout)
                  | (Hfin & Hhost & r & Hout & _)]]]])]];
    rewrite Hout; try discriminate; intros [= <-]; cbn [state error];
    try discriminate; intros _.
  - left. split; [exact Hrtc | reflexivity].
  - right. split; [exact Hrtc |]. left. reflexivity.
  - right. split; [exact Hrtc |]. left. reflexivity.
  - right. split; [exact Hrtc |]. right. reflexivity.
  - right. split; [exact Hrtc |]. right. reflexivity.
Qed.

Lemma basic_error_kinds_witness :
  (false = false
   /\ error (errorResult UNKNOWN "BROWSER_UNSUPPORTED" 1000 1001 None)
      = Some (UNKNOWN, "BROWSER_UNSUPPORTED"))
  \/ (false = true
      /\ (error (errorResult UNKNOWN "BROWSER_UNSUPPORTED" 1000 1001 None)
          = Some (TIMEOUT, "TIMEOUT")
          \/ error (errorResult UNKNOWN "BROWSER_UNSUPPORTED" 1000 1001 None)
             = Some (STUN_UNREACHABLE, "STUN_UNREACHABLE"))).
Proof.
  apply (basic_error_kinds false [] routeFetch 1000 1001); reflexivity.
Defined.

(** ** Results of a detection (advanced-detector.ts, the hook) *)



Lemma firstDecisive_seen_prefix (events : list Probe.Event) :
  forall (pre seen : list RTCIceCandidate) (e : Probe.Event),
    Spec.firstDecisive pre events = Some (seen, e) ->
    exists rest, pre ++ Spec.candidatesOf events = seen ++ rest.
Proof.
  induction events as [|e0 rest IH]; intros pre seen e Hfirst;
    [discriminate |].
  cbn [Spec.firstDecisive] in Hfirst.
  destruct e0 as [[c|] | [| |] | | | message]; cbn [Spec.candidatesOf];
    try (injection Hfirst as <- <-; eauto).
  - destruct (IH _ _ _ Hfirst) as [tail Htail].
    exists tail. rewrite <- Htail, <- app_assoc. reflexivity.
  - apply (IH _ _ _ Hfirst).
  - apply (IH _ _ _ Hfirst).
Qed.

Lemma seen_without_external (events : list Probe.Event)
    (seen : list RTCIceCandidate) (e : Probe.Event) :
  Spec.externalProduced (Spec.candidatesOf events) = false ->
  Spec.firstDecisive [] events = Some (seen, e) ->
  Spec.externalProduced seen = false.
Proof.
  intros Hnone Hfirst.
  destruct (firstDecisive_seen_prefix _ _ _ _ Hfirst) as [rest Hrest].
  cbn [app] in Hrest. rewrite Hrest in Hnone.
  unfold Spec.externalProduced in *. rewrite existsb_app in Hnone.
  apply orb_false_elim in Hnone as [Hseen _]. exact Hseen.
Qed.

(** What [detectNAT] resolves with when gathering finishes with a host
    candidate on record. *)
Lemma detectNAT_finished (events : list Probe.Event)
    (seen : list RTCIceCandidate) (e : Probe.Event) (info : IPAddressInfo) :
  Spec.firstDecisive [] events = Some (seen, e) ->
  Spec.finishes e = true ->
  extractIPInfo seen = Return info ->
  exists r,
    detectNAT true events = Some (Return r)
    /\ br_ipInfo r = info
    /\ br_portMapping r = analyzePortMapping seen.
Proof.
  intros Hfirst Hfin Hinfo. unfold detectNAT. cbn [negb].
  rewrite detectWithMultipleServers_first_decisive, Hfirst.
  rewrite (verdict_of_finish seen e Hfin), Hinfo.
  eexists. split; [reflexivity |]. split; reflexivity.
Qed.

Lemma no_srflx_no_public_address
    (seen : list RTCIceCandidate) (info : IPAddressInfo) :
  Spec.externalProduced seen = false ->
  extractIPInfo seen = Return info ->
  publicIP info = None /\ publicPort info = None.
Proof.
  intros Hnone Hinfo. unfold extractIPInfo in Hinfo.
  rewrite (no_srflx_find seen Hnone) in Hinfo.
  destruct (List.find (ICE.isType ICE.host) seen); [| discriminate].
  injection Hinfo as <-. split; reflexivity.
Qed.

(** X12.  When no server-reflexive candidate arrives during a run, the
    advanced detection never consults the server (its result is the same
    for any two networks) and it never succeeds: the result, when there is
    one, is an error. *)
Theorem advanced_without_external_mapping
    (hasRTCPeerConnection : bool) (events : list Probe.Event)
    (fetch fetch' : Fetch) (started completed : Z) :
  Spec.externalProduced (Spec.candidatesOf events) = false ->
  detectNATAdvanced hasRTCPeerConnection events fetch started completed
  = detectNATAdvanced hasRTCPeerConnection events fetch' started completed
  /\ forall result,
       detectNATAdvanced hasRTCPeerConnection events fetch started completed
       = Some result ->
       state result = ERROR.
Proof.
  intros Hnone. unfold detectNATAdvanced.
  destruct (detectNAT_classified hasRTCPeerConnection events)
    as [[Hrtc Hout]
       | [(Hrtc & Hfirst & Hout)
         | (Hrtc & seen & e & Hfirst &
            [[He Hout]
            | [(message & He & Hmsg & Hout)
              | [(message & He & Hmsg & Hout)
                | [(Hfin & Hhost & Hout)
                  | (Hfin & Hhost & r & Hout & _)]]]])]];
    rewrite Hout;
    try (split; [reflexivity | intros result [= <-]; reflexivity]);
    try (split; [reflexivity | discriminate]).
  subst hasRTCPeerConnection.
  destruct (extractIPInfo_host seen Hhost) as [info Hinfo].
  destruct (detectNAT_finished events seen e info Hfirst Hfin Hinfo)
    as (r' & Hr' & Hip & _).
  rewrite Hout in Hr'. injection Hr' as <-.
  destruct (no_srflx_no_public_address seen info
              (seen_without_external events seen e Hnone Hfirst) Hinfo)
    as [Hpublic _].
  unfold advancedAfterBasic. rewrite Hip, Hpublic. cbn [JS.truthyStr negb orb].
  split; [reflexivity | intros result [= <-]; reflexivity].
Qed.

Lemma advanced_without_external_mapping_witness :
  detectNATAdvanced true
    [Probe.IceCandidate
       (Some (ICE.mkCandidate EmptyString (Some ICE.host)
                (Some "192.168.1.5") None (Some 54321)));
     Probe.IceCandidate None]
    routeFetch 1000 2000
  = detectNATAdvanced true
      [Probe.IceCandidate
         (Some (ICE.mkCandidate EmptyString (Some ICE.host)
                  (Some "192.168.1.5") None (Some 54321)));
       Probe.IceCandidate None]
      (fun _ => Throw "Failed to fetch") 1000 2000
  /\ forall result,
       detectNATAdvanced true
         [Probe.IceCandidate
            (Some (ICE.mkCandidate EmptyString (Some ICE.host)
                     (Some "192.168.1.5") None (Some 54321)));
          Probe.IceCandidate None]
         routeFetch 1000 2000
       = Some result ->
       state result = ERROR.
Proof. apply advanced_without_external_mapping. reflexivity. Defined.

(** X13.  Against the route of this repository the advanced path has two
    kinds of result.  A success always reports PORT_RESTRICTED_CONE with
    confidence "high", whatever was measured.  A failure always has the
    kind UNKNOWN, and its message is one of the three codes of [detectNAT]
    or the complaint about a missing public address: the route never
    rejects what the client sends. *)
Theorem advanced_against_route
    (hasRTCPeerConnection : bool) (events : list Probe.Event)
    (started completed : Z) (result : DetectionResult) :
  runDetection true hasRTCPeerConnection events routeFetch started completed
  = Some result ->
  detectionMethod result = Some advanced
  /\ ((state result = SUCCESS
       /\ natType result = Some PORT_RESTRICTED_CONE
       /\ confidence result = Some high)
      \/ (state result = ERROR
          /\ exists message,
               error result = Some (UNKNOWN, message)
               /\ (message = "BROWSER_UNSUPPORTED" \/ message = "TIMEOUT"
                   \/ message = "STUN_UNREACHABLE"
                   \/ message
                      = "Failed to get public IP/port from basic detection"))).
Proof.
  unfold runDetection, detectNATAdvanced.
  destruct (detectNAT_classified hasRTCPeerConnection events)
    as [[Hrtc Hout]
       | [(Hrtc & Hfirst & Hout)
         | (Hrtc & seen & e & Hfirst &
            [[He Hout]
            | [(message & He & Hmsg & Hout)
              | [(message & He & Hmsg & Hout)
                | [(Hfin & Hhost & Hout)
                  | (Hfin & Hhost & r & Hout & _)]]]])]];
    rewrite Hout; try discriminate;
    try (intros [= <-]; split; [reflexivity |]; right;
         split; [reflexivity |]; eexists; split; [reflexivity |]; tauto).
  unfold advancedAfterBasic.
  destruct (JS.truthyStr (publicIP (br_ipInfo r))) eqn:Hip;
    [| intros [= <-]; split; [reflexivity |]; right;
       split; [reflexivity |]; eexists; split; [reflexivity |]; tauto].
  destruct (JS.truthyNum (publicPort (br_ipInfo r))) eqn:Hport;
    [| intros [= <-]; split; [reflexivity |]; right;
       split; [reflexivity |]; eexists; split; [reflexivity |]; tauto].
  cbn [negb orb]. unfold routeFetch, Route.POST.
  cbn [Route.body_publicIP Route.body_publicPort].
  rewrite Hip, Hport. cbn [negb orb].
  destruct (publicIP (br_ipInfo r)) as [ip|]; [| discriminate Hip].
  destruct (publicPort (br_ipInfo r)) as [port|]; [| discriminate Hport].
  intros [= <-]. split; [reflexivity |]. left. repeat split.
Qed.

(** A run whose two mappings differ in port: the classifier would say
    SYMMETRIC, the advanced path says PORT_RESTRICTED_CONE. *)
Lemma advanced_against_route_witness :
  exists result,
    runDetection true true
      [Probe.IceCandidate
         (Some (ICE.mkCandidate EmptyString (Some ICE.host)
                  (Some "192.168.1.5") None (Some 54321)));
       Probe.IceCandidate
         (Some (ICE.mkCandidate EmptyString (Some ICE.srflx)
                  (Some "203.0.113.10") None (Some 40000)));
       Probe.IceCandidate
         (Some (ICE.mkCandidate EmptyString (Some ICE.srflx)
                  (Some "203.0.113.10") None (Some 40001)));
       Probe.IceCandidate None]
      routeFetch 1000 2600 = Some result
    /\ (exists observed,
          portMapping result = Some observed
          /\ isPortConsistent observed = false)
    /\ detectionMethod result = Some advanced
    /\ ((state result = SUCCESS
         /\ natType result = Some PORT_RESTRICTED_CONE
         /\ confidence result = Some high)
        \/ (state result = ERROR
            /\ exists message,
                 error result = Some (UNKNOWN, message)
                 /\ (message = "BROWSER_UNSUPPORTED" \/ message = "TIMEOUT"
                     \/ message = "STUN_UNREACHABLE"
                     \/ message
                        = "Failed to get public IP/port from basic detection"))).
Proof.
  eexists. split; [vm_compute; reflexivity |].
  split; [eexists; split; [reflexivity | vm_compute; reflexivity] |].
  apply (advanced_against_route true
           [Probe.IceCandidate
              (Some (ICE.mkCandidate EmptyString (Some ICE.host)
                       (Some "192.168.1.5") None (Some 54321)));
            Probe.IceCandidate
              (Some (ICE.mkCandidate EmptyString (Some ICE.srflx)
                       (Some "203.0.113.10") None (Some 40000)));
            Probe.IceCandidate
              (Some (ICE.mkCandidate EmptyString (Some ICE.srflx)
                       (Some "203.0.113.10") None (Some 40001)));
            Probe.IceCandidate None]
           1000 2600).
  vm_compute. reflexivity.
Defined.

(** ** The route (route.ts) *)


(** ** The binding codec, further (stun-server.ts) *)

Lemma testbit_toInt32 (z k : Z) :
  0 <= k < 32 -> Z.testbit (JS.toInt32 z) k = Z.testbit z k.
Proof.
  intros Hk. unfold JS.toInt32.
  destruct (z mod 2 ^ 32 <? 2 ^ 31).
  - apply Z.mod_pow2_bits_low. lia.
  - rewrite <- (Z.mod_pow2_bits_low (z mod 2 ^ 32 - 2 ^ 32) 32 k) by lia.
    replace ((z mod 2 ^ 32 - 2 ^ 32) mod 2 ^ 32) with (z mod 2 ^ 32).
    + apply Z.mod_pow2_bits_low. lia.
    + replace (z mod 2 ^ 32 - 2 ^ 32)
        with (z mod 2 ^ 32 + (-1) * 2 ^ 32) by lia.
      rewrite Z.mod_add by lia. rewrite Z.mod_mod by lia. reflexivity.
Qed.

Lemma land_pow2 (x k : Z) :
  0 <= k -> Z.land x (2 ^ k) = if Z.testbit x k then 2 ^ k else 0.
Proof.
  intros Hk. apply Z.bits_inj'. intros n Hn.
  rewrite Z.land_spec, Z.pow2_bits_eqb by lia.
  destruct (Z.eqb_spec k n) as [<- | Hne].
  - destruct (Z.testbit x k); cbn [andb].
    + rewrite Z.pow2_bits_eqb by lia. symmetry. apply Z.eqb_refl.
    + rewrite Z.bits_0. reflexivity.
  - rewrite andb_false_r. destruct (Z.testbit x k).
    + rewrite Z.pow2_bits_eqb by lia. symmetry. apply Z.eqb_neq. exact Hne.
    + rewrite Z.bits_0. reflexivity.
Qed.

(** Testing one of the low bits of a number with [&]. *)
Lemma and_bit_test (flags k : Z) :
  0 <= k < 31 ->
  negb (JS.and flags (2 ^ k) =? 0) = Z.testbit flags k.
Proof.
  intros Hk. unfold JS.and.
  assert (Hpow : 0 < 2 ^ k < 2 ^ 31)
    by (split; [apply Z.pow_pos_nonneg; lia
               | apply Z.pow_lt_mono_r; lia]).
  rewrite (toInt32_small (2 ^ k)) by lia.
  rewrite land_pow2 by lia. rewrite testbit_toInt32 by lia.
  destruct (Z.testbit flags k).
  - rewrite toInt32_small by lia.
    destruct (Z.eqb_spec (2 ^ k) 0); [lia | reflexivity].
  - reflexivity.
Qed.

Lemma low_bit_of_last_byte (q b k : Z) :
  0 <= b < 256 -> 0 <= k < 8 ->
  Z.testbit (q * 256 + b) k = Z.testbit b k.
Proof.
  intros Hb Hk.
  rewrite <- (Z.mod_pow2_bits_low (q * 256 + b) 8 k) by lia.
  change (2 ^ 8) with 256. rewrite Z.add_comm, Z.mod_add by lia.
  rewrite Z.mod_small by lia. reflexivity.
Qed.

(** X15.  The two flags of a CHANGE-REQUEST value are bit 2 (change IP)
    and bit 1 (change port) of its fourth byte, each on its own; the first
    three bytes and whatever follows the fourth are ignored.  A value
    shorter than four bytes sets neither flag. *)
Theorem parseChangeRequest_bits (b0 b1 b2 b3 : Z) (rest short : list Z) :
  0 <= b3 < 256 ->
  (List.length short < 4)%nat ->
  Stun.parseChangeRequest (b0 :: b1 :: b2 :: b3 :: rest)
  = (Z.testbit b3 2, Z.testbit b3 1)
  /\ Stun.parseChangeRequest short = (false, false).
Proof.
  intros Hb3 Hshort. split.
  - unfold Stun.parseChangeRequest. cbn [List.length Nat.ltb Nat.leb].
    cbn [Stun.readUInt32BE nth_error Nat.add].
    change 4 with (2 ^ 2). change 2 with (2 ^ 1) at 3.
    rewrite !and_bit_test by lia.
    rewrite !low_bit_of_last_byte by lia. reflexivity.
  - unfold Stun.parseChangeRequest.
    destruct (Nat.ltb_spec (List.length short) 4); [reflexivity | lia].
Qed.

(** The flags 0x00000006 ask for both changes; an empty value for none. *)
Lemma parseChangeRequest_bits_witness :
  Stun.parseChangeRequest [0; 0; 0; 6; 9; 9] = (Z.testbit 6 2, Z.testbit 6 1)
  /\ Stun.parseChangeRequest [] = (false, false).
Proof. apply parseChangeRequest_bits; [lia | simpl; lia]. Defined.

(** X16.  A buffer that is exactly a header with the right magic cookie
    parses as a message without attributes, whatever message type and
    whatever body length its first four bytes declare. *)
Theorem parse_header_only (t0 t1 l0 l1 : Z) (transactionId : list Z) :
  List.length transactionId = 12%nat ->
  Stun.parseSTUNMessage
    ([t0; t1; l0; l1; 0x21; 0x12; 0xa4; 0x42] ++ transactionId)
  = Some (Stun.mkMessage (t0 * 256 + t1) (l0 * 256 + l1) transactionId ∅).
Proof.
  intros Hid. explicit_transactionId transactionId Hid. reflexivity.
Qed.

Lemma parse_header_only_witness :
  Stun.parseSTUNMessage
    ([0; 1; 0xff; 0xff; 0x21; 0x12; 0xa4; 0x42]
     ++ [1; 2; 3; 4; 5; 6; 7; 8; 9; 10; 11; 12])
  = Some (Stun.mkMessage (0 * 256 + 1) (0xff * 256 + 0xff)
            [1; 2; 3; 4; 5; 6; 7; 8; 9; 10; 11; 12] ∅).
Proof. apply parse_header_only. reflexivity. Defined.

Lemma byte_halves (v : Z) :
  0 <= v < 65536 -> Shape.isByte (v / 256) /\ Shape.isByte (v mod 256).
Proof.
  intros Hv. unfold Shape.isByte. split.
  - split; [apply Z.div_pos; lia | apply Z.div_lt_upper_bound; lia].
  - apply Z.mod_pos_bound. lia.
Qed.

(** X17.  For valid arguments the response that [buildSTUNResponse] gives
    is a sequence of bytes, 32 of them without an origin and 44 with one,
    so a whole number of 32-bit words, and its length field holds the
    number of bytes after the 20-byte header. *)
Theorem built_response_well_formed
    (transactionId : list Z) (addr : string) (a b c d port : Z)
    (responseAddr : option string) (responsePort : option Z)
    (bytes : list Z) :
  List.length transactionId = 12%nat ->
  Forall Shape.isByte transactionId ->
  Spec.isIPv4 addr a b c d ->
  0 <= port < 65536 ->
  Spec.validOrigin responseAddr responsePort ->
  Stun.buildSTUNResponse transactionId addr port responseAddr responsePort
  = Some bytes ->
  Forall Shape.isByte bytes
  /\ List.length bytes
     = match responseAddr with Some _ => 44%nat | None => 32%nat end
  /\ Stun.readUInt16BE bytes 2 = Some (Z.of_nat (List.length bytes) - 20).
Proof.
  intros Hid Hbytes Haddr Hport Horigin.
  pose proof (lxor_bound 16 port 0x2112 ltac:(lia) ltac:(lia) ltac:(lia))
    as Hxp.
  destruct (byte_halves _ Hxp) as [Hxp1 Hxp2].
  pose proof Haddr as (_ & Ha & Hb & Hc & Hd).
  pose proof (lxor_bound 8 a 0x21 ltac:(lia) ltac:(lia) ltac:(lia)).
  pose proof (lxor_bound 8 b 0x12 ltac:(lia) ltac:(lia) ltac:(lia)).
  pose proof (lxor_bound 8 c 0xa4 ltac:(lia) ltac:(lia) ltac:(lia)).
  pose proof (lxor_bound 8 d 0x42 ltac:(lia) ltac:(lia) ltac:(lia)).
  destruct responseAddr as [origin|], responsePort as [port'|];
    cbn [Spec.validOrigin] in Horigin; try contradiction.
  - destruct Horigin as [(a' & b' & c' & d' & Horigin) Hport'].
    rewrite (buildSTUNResponse_with_origin _ _ a b c d _ _ a' b' c' d')
      by assumption.
    destruct Horigin as (_ & Ha' & Hb' & Hc' & Hd').
    destruct (byte_halves port' ltac:(lia)) as [Hp1 Hp2].
    intros [= <-]. split; [| split].
    + unfold Shape.isByte in *.
      repeat (constructor; [lia |]).
      apply Forall_app. split; [exact Hbytes |].
      repeat (constructor; [lia |]). constructor.
    + cbn [List.length]. rewrite length_app, Hid. reflexivity.
    + cbn [List.length Stun.readUInt16BE nth_error Nat.add].
      rewrite length_app, Hid. reflexivity.
  - rewrite (buildSTUNResponse_without_origin _ _ a b c d) by assumption.
    intros [= <-]. split; [| split].
    + unfold Shape.isByte in *.
      repeat (constructor; [lia |]).
      apply Forall_app. split; [exact Hbytes |].
      repeat (constructor; [lia |]). constructor.
    + cbn [List.length]. rewrite length_app, Hid. reflexivity.
    + cbn [List.length Stun.readUInt16BE nth_error Nat.add].
      rewrite length_app, Hid. reflexivity.
Qed.

Lemma built_response_well_formed_witness :
  exists bytes,
    Stun.buildSTUNResponse [1; 2; 3; 4; 5; 6; 7; 8; 9; 10; 11; 255]
      "203.0.113.10" 40000 (Some "0.0.0.0") (Some 3479) = Some bytes
    /\ Forall Shape.isByte bytes
    /\ List.length bytes = 44%nat
    /\ Stun.readUInt16BE bytes 2 = Some (Z.of_nat (List.length bytes) - 20).
Proof.
  eexists. split; [vm_compute; reflexivity |].
  apply (built_response_well_formed
           [1; 2; 3; 4; 5; 6; 7; 8; 9; 10; 11; 255]
           "203.0.113.10" 203 0 113 10 40000 (Some "0.0.0.0") (Some 3479)).
  - reflexivity.
  - unfold Shape.isByte. repeat constructor; lia.
  - unfold Spec.isIPv4. split; [reflexivity | lia].
  - lia.
  - split; [exists 0, 0, 0, 0; unfold Spec.isIPv4; split; [reflexivity | lia]
           | lia].
  - vm_compute. reflexivity.
Defined.

(** X18.  The origin written by [buildSTUNResponse] reads back as it is:
    parsing the response gives a RESPONSE-ORIGIN value of family IPv4 that
    holds the port and the four octets in clear (no XOR); without an
    origin the parsed message has no RESPONSE-ORIGIN attribute. *)
Theorem response_origin_round_trip
    (transactionId : list Z) (addr : string) (a b c d port : Z)
    (origin : string) (a' b' c' d' port' : Z) :
  List.length transactionId = 12%nat ->
  Spec.isIPv4 addr a b c d -> 0 <= port < 65536 ->
  Spec.isIPv4 origin a' b' c' d' -> 0 < port' < 65536 ->
  (exists bytes msg,
     Stun.buildSTUNResponse transactionId addr port (Some origin) (Some port')
     = Some bytes
     /\ Stun.parseSTUNMessage bytes = Some msg
     /\ Stun.attributes msg !! Stun.RESPONSE_ORIGIN
        = Some [0; 1; port' / 256; port' mod 256; a'; b'; c'; d']
     /\ Stun.readUInt16BE [0; 1; port' / 256; port' mod 256; a'; b'; c'; d'] 2
        = Some port')
  /\ (exists bytes msg,
        Stun.buildSTUNResponse transactionId addr port None None = Some bytes
        /\ Stun.parseSTUNMessage bytes = Some msg
        /\ Stun.attributes msg !! Stun.RESPONSE_ORIGIN = None).
Proof.
  intros Hid Haddr Hport Horigin Hport'. split.
  - eexists. eexists.
    split; [apply (buildSTUNResponse_with_origin _ _ a b c d _ _ a' b' c' d');
            assumption |].
    split; [apply (parse_two_attributes transactionId 0 0x20 0x80 0x2b);
            [assumption | reflexivity | reflexivity] |].
    split; [cbn [Stun.attributes]; apply lookup_insert_eq |].
    cbn [Stun.readUInt16BE nth_error Nat.add].
    rewrite (Z.mul_comm (port' / 256) 256), <- Z.div_mod by lia. reflexivity.
  - eexists. eexists.
    split; [apply (buildSTUNResponse_without_origin _ _ a b c d); assumption |].
    split; [apply (parse_one_attribute transactionId 0 0x20);
            [assumption | reflexivity] |].
    cbn [Stun.attributes]. rewrite lookup_insert_ne by discriminate.
    apply lookup_empty.
Qed.

Lemma response_origin_round_trip_witness :
  (exists bytes msg,
     Stun.buildSTUNResponse [1; 2; 3; 4; 5; 6; 7; 8; 9; 10; 11; 12]
       "203.0.113.10" 40000 (Some "192.0.2.1") (Some 3479) = Some bytes
     /\ Stun.parseSTUNMessage bytes = Some msg
     /\ Stun.attributes msg !! Stun.RESPONSE_ORIGIN
        = Some [0; 1; 3479 / 256; 3479 mod 256; 192; 0; 2; 1]
     /\ Stun.readUInt16BE [0; 1; 3479 / 256; 3479 mod 256; 192; 0; 2; 1] 2
        = Some 3479)
  /\ (exists bytes msg,
        Stun.buildSTUNResponse [1; 2; 3; 4; 5; 6; 7; 8; 9; 10; 11; 12]
          "203.0.113.10" 40000 None None = Some bytes
        /\ Stun.parseSTUNMessage bytes = Some msg
        /\ Stun.attributes msg !! Stun.RESPONSE_ORIGIN = None).
Proof.
  apply (response_origin_round_trip [1; 2; 3; 4; 5; 6; 7; 8; 9; 10; 11; 12]
           "203.0.113.10" 203 0 113 10 40000 "192.0.2.1" 192 0 2 1 3479).
  - reflexivity.
  - unfold Spec.isIPv4. split; [reflexivity | lia].
  - lia.
  - unfold Spec.isIPv4. split; [reflexivity | lia].
  - lia.
Defined.











(** ** The listener, further (stun-server.ts) *)

(** X21.  The handler sends nothing exactly when the datagram is not a
    message (too short or wrong magic cookie) or is a message of another
    type than binding request; in every other case it either sends or
    throws. *)
Theorem onMessage_silent_iff
    (port : Z) (localAddr : string) (msg : list Z) (rinfo : Stun.RemoteInfo) :
  Stun.onMessage port localAddr msg rinfo = Return []
  <-> Stun.parseSTUNMessage msg = None
      \/ exists stunMsg,
           Stun.parseSTUNMessage msg = Some stunMsg
           /\ Stun.type stunMsg <> Stun.BINDING_REQUEST.
Proof.
  unfold Stun.onMessage.
  destruct (Stun.parseSTUNMessage msg) as [stunMsg|];
    [| split; [intros _; left; reflexivity | reflexivity]].
  destruct (Z.eqb_spec (Stun.type stunMsg) Stun.BINDING_REQUEST) as [Heq | Hne];
    cbn [negb].
  - split.
    + destruct (match Stun.attributes stunMsg !! Stun.CHANGE_REQUEST with
                | Some changeReq => Stun.parseChangeRequest changeReq
                | None => (false, false)
                end) as [changeIP changePort].
      destruct (Stun.buildSTUNResponse _ _ _ _ _); [| discriminate].
      destruct (_ =? port); discriminate.
    + intros [Hnone | (m & [= <-] & Hne)]; [discriminate | contradiction].
  - split; [| reflexivity].
    intros _. right. exists stunMsg. split; [reflexivity | exact Hne].
Qed.

Lemma parsed_transactionId_bytes (msg : list Z) (stunMsg : Stun.STUNMessage) :
  Stun.parseSTUNMessage msg = Some stunMsg ->
  Stun.transactionId stunMsg = Stun.subarray msg 8 20.
Proof.
  unfold Stun.parseSTUNMessage.
  destruct (List.length msg <? 20)%nat; [discriminate |].
  destruct (Stun.readUInt16BE msg 0); [| discriminate].
  destruct (Stun.readUInt16BE msg 2); [| discriminate].
  destruct (Stun.readUInt32BE msg 4); [| discriminate].
  destruct (negb _); [discriminate |].
  destruct (Stun.parseAttributes _ _ _ _ _); [| discriminate].
  intros [= <-]. reflexivity.
Qed.

(** X22.  A binding request from a well-formed sender is answered with one
    datagram, sent back to the sender's address and port.  The answer
    parses as a binding response that repeats bytes 8 to 19 of the request
    as its transaction ID; its XOR-MAPPED-ADDRESS, XORed with the cookie
    again, is the sender's own address and port; its RESPONSE-ORIGIN holds
    the listener's address and a port that is 3479 when the listener is the
    one on 3478 and the request asks to change the port without changing
    the address, and the listener's own port in every other case. *)
Theorem binding_request_answered
    (port : Z) (localAddr : string) (msg : list Z) (rinfo : Stun.RemoteInfo)
    (stunMsg : Stun.STUNMessage) (a b c d a' b' c' d' : Z) :
  Stun.parseSTUNMessage msg = Some stunMsg ->
  Stun.type stunMsg = Stun.BINDING_REQUEST ->
  Spec.isIPv4 (Stun.address rinfo) a b c d ->
  0 <= Stun.port rinfo < 65536 ->
  Spec.isIPv4 localAddr a' b' c' d' ->
  0 < port < 65535 ->
  let flags :=
    match Stun.attributes stunMsg !! Stun.CHANGE_REQUEST with
    | Some changeReq => Stun.parseChangeRequest changeReq
    | None => (false, false)
    end in
  let announced :=
    if snd flags && negb (fst flags) && (port =? 3478) then 3479 else port in
  exists response reply value,
    Stun.onMessage port localAddr msg rinfo
    = Return [Stun.mkDatagram port (Stun.port rinfo) (Stun.address rinfo)
                response]
    /\ Stun.parseSTUNMessage response = Some reply
    /\ Stun.type reply = Stun.BINDING_RESPONSE
    /\ Stun.transactionId reply = Stun.subarray msg 8 20
    /\ Stun.attributes reply !! Stun.XOR_MAPPED_ADDRESS = Some value
    /\ Spec.unxorMappedAddress value = Some ([a; b; c; d], Stun.port rinfo)
    /\ Stun.attributes reply !! Stun.RESPONSE_ORIGIN
       = Some [0; 1; announced / 256; announced mod 256; a'; b'; c'; d'].
Proof.
  intros Hparse Htype Hremote Hrport Hlocal Hport flags announced.
  pose proof (parsed_transactionId_length msg stunMsg Hparse) as Hid.
  rewrite <- (parsed_transactionId_bytes msg stunMsg Hparse).
  unfold Stun.onMessage. rewrite Hparse, Htype.
  cbn [negb Z.eqb Stun.BINDING_REQUEST Pos.eqb].
  fold flags. destruct flags as [changeIP changePort] eqn:Hflags.
  assert (Hannounced : Stun.chooseResponsePort port changeIP changePort
                       = announced).
  { subst announced. unfold Stun.chooseResponsePort, Stun.PRIMARY, Stun.SECONDARY.
    cbn [fst snd]. destruct changePort, changeIP, (port =? 3478); reflexivity. }
  rewrite Hannounced.
  assert (Hrange : 0 < announced < 65536).
  { subst announced. destruct (_ && _ && _); lia. }
  rewrite (buildSTUNResponse_with_origin _ _ a b c d _ _ a' b' c' d')
    by assumption.
  eexists. eexists. eexists.
  split; [destruct (announced =? port); reflexivity |].
  split; [apply (parse_two_attributes (Stun.transactionId stunMsg)
                   0 0x20 0x80 0x2b);
          [assumption | reflexivity | reflexivity] |].
  split; [reflexivity |]. split; [reflexivity |].
  cbn [Stun.attributes].
  split; [rewrite lookup_insert_ne by discriminate; apply lookup_insert_eq |].
  split; [apply unxor_mapped_value | apply lookup_insert_eq].
Qed.

(** The request of the Restricted-Cone test at the secondary listener. *)
Lemma binding_request_answered_witness :
  exists response reply value,
    Stun.onMessage 3479 "0.0.0.0"
      [0; 1; 0; 8; 0x21; 0x12; 0xa4; 0x42;
       1; 2; 3; 4; 5; 6; 7; 8; 9; 10; 11; 12;
       0; 3; 0; 4; 0; 0; 0; 2]
      (Stun.mkRemoteInfo "198.51.100.7" 54321)
    = Return [Stun.mkDatagram 3479 54321 "198.51.100.7" response]
    /\ Stun.parseSTUNMessage response = Some reply
    /\ Stun.type reply = Stun.BINDING_RESPONSE
    /\ Stun.transactionId reply = [1; 2; 3; 4; 5; 6; 7; 8; 9; 10; 11; 12]
    /\ Stun.attributes reply !! Stun.XOR_MAPPED_ADDRESS = Some value
    /\ Spec.unxorMappedAddress value = Some ([198; 51; 100; 7], 54321)
    /\ Stun.attributes reply !! Stun.RESPONSE_ORIGIN
       = Some [0; 1; 3479 / 256; 3479 mod 256; 0; 0; 0; 0].
Proof.
  refine (binding_request_answered 3479 "0.0.0.0"
            [0; 1; 0; 8; 0x21; 0x12; 0xa4; 0x42;
             1; 2; 3; 4; 5; 6; 7; 8; 9; 10; 11; 12;
             0; 3; 0; 4; 0; 0; 0; 2]
            (Stun.mkRemoteInfo "198.51.100.7" 54321)
            (Stun.mkMessage 1 8 [1; 2; 3; 4; 5; 6; 7; 8; 9; 10; 11; 12]
               (<[3 := [0; 0; 0; 2]]> ∅))
            198 51 100 7 0 0 0 0 _ _ _ _ _ _).
  - vm_compute. reflexivity.
  - reflexivity.
  - unfold Spec.isIPv4. split; [reflexivity | lia].
  - cbn. lia.
  - unfold Spec.isIPv4. split; [reflexivity | lia].
  - lia.
Defined.

(** ** Candidate lines (webrtc-detector.ts) *)

Lemma split_at_first (sep : ascii) (s rest : string) :
  Shape.lacks sep s = true ->
  JS.split sep (s +:+ String sep EmptyString +:+ rest)
  = s :: JS.split sep rest.
Proof.
  change (String sep EmptyString +:+ rest) with (String sep rest).
  induction s as [|c s IH].
  - intros _. change (EmptyString +:+ String sep rest) with (String sep rest).
    cbn [JS.split]. rewrite Ascii.eqb_refl. reflexivity.
  - cbn [Shape.lacks]. intros [Hc Hs]%andb_prop.
    apply negb_true_iff in Hc.
    change (String c s +:+ String sep rest)
      with (String c (s +:+ String sep rest)).
    cbn [JS.split]. rewrite Hc, (IH Hs). reflexivity.
Qed.

Lemma ip_format_lacks_space (s : string) :
  allDigitsOrDots s = true -> Shape.lacks " " s = true.
Proof.
  induction s as [|c s IH]; [reflexivity |].
  cbn [allDigitsOrDots Shape.lacks]. intros [Hc Hs]%andb_prop.
  rewrite (IH Hs), andb_true_r.
  destruct (Ascii.eqb_spec c " ") as [-> | Hne]; [discriminate Hc | reflexivity].
Qed.

(** X23.  From a candidate line whose first four fields hold no blank and
    whose fifth field is made of digits and dots, [extractIPFromCandidate]
    takes that fifth field, whatever follows it on the line and whatever
    the [address] and [ip] properties of the candidate say. *)
Theorem extractIP_takes_fifth_field
    (f0 f1 f2 f3 field rest : string)
    (type : option ICE.RTCIceCandidateType)
    (address ip : option string) (port : option Z) :
  Shape.lacks " " f0 = true -> Shape.lacks " " f1 = true ->
  Shape.lacks " " f2 = true -> Shape.lacks " " f3 = true ->
  matchesIPFormat field = true ->
  extractIPFromCandidate
    (ICE.mkCandidate
       (f0 +:+ " " +:+ f1 +:+ " " +:+ f2 +:+ " " +:+ f3 +:+ " "
        +:+ field +:+ " " +:+ rest)
       type address ip port)
  = Some field.
Proof.
  intros H0 H1 H2 H3 Hfield.
  assert (Hspace : Shape.lacks " " field = true).
  { apply ip_format_lacks_space. destruct field; [discriminate | exact Hfield]. }
  unfold extractIPFromCandidate. cbn [ICE.candidate ICE.address ICE.ip].
  assert (Htruthy :
    JS.truthyStr
      (Some (f0 +:+ " " +:+ f1 +:+ " " +:+ f2 +:+ " " +:+ f3 +:+ " "
             +:+ field +:+ " " +:+ rest)) = true)
    by (destruct f0; reflexivity).
  rewrite Htruthy. cbn [negb].
  rewrite !split_at_first by assumption.
  cbn [List.length Nat.ltb Nat.leb nth_error]. rewrite Hfield. reflexivity.
Qed.

Lemma extractIP_takes_fifth_field_witness :
  extractIPFromCandidate
    (ICE.mkCandidate
       ("candidate:842163049" +:+ " " +:+ "1" +:+ " " +:+ "udp" +:+ " "
        +:+ "1677729535" +:+ " " +:+ "203.0.113.10" +:+ " "
        +:+ "40000 typ srflx raddr 0.0.0.0 rport 0")
       (Some ICE.srflx) (Some "198.51.100.99") None (Some 40000))
  = Some "203.0.113.10".
Proof. apply extractIP_takes_fifth_field; reflexivity. Defined.

(** X24.  The label [detectNAT] gives for the successful server has two
    values only: when gathering finishes with a host candidate on record,
    it is "STUN server (via ICE)" if a server-reflexive candidate had
    arrived by then, however many, and the fallback "STUN (via ICE)" if
    none had. *)
Theorem successful_server_label
    (events : list Probe.Event) (seen : list RTCIceCandidate)
    (e : Probe.Event) :
  Spec.firstDecisive [] events = Some (seen, e) ->
  Spec.finishes e = true ->
  Spec.hostProduced seen = true ->
  exists r,
    detectNAT true events = Some (Return r)
    /\ br_successfulServer r
       = if Spec.externalProduced seen then "STUN server (via ICE)"
         else "STUN (via ICE)".
Proof.
  intros Hfirst Hfin Hhost. unfold detectNAT. cbn [negb].
  rewrite detectWithMultipleServers_first_decisive, Hfirst.
  rewrite (verdict_of_finish seen e Hfin).
  destruct (extractIPInfo_host seen Hhost) as [info ->].
  eexists. split; [reflexivity |].
  cbn [br_successfulServer pr_successfulServers].
  destruct (Spec.externalProduced seen); reflexivity.
Qed.

Lemma successful_server_label_witness :
  exists r,
    detectNAT true
      [Probe.IceCandidate
         (Some (ICE.mkCandidate EmptyString (Some ICE.srflx)
                  (Some "203.0.113.10") None (Some 40000)));
       Probe.IceCandidate
         (Some (ICE.mkCandidate EmptyString (Some ICE.host)
                  (Some "192.168.1.5") None (Some 54321)));
       Probe.IceCandidate
         (Some (ICE.mkCandidate EmptyString (Some ICE.srflx)
                  (Some "203.0.113.10") None (Some 40001)));
       Probe.WaitElapsed]
    = Some (Return r)
    /\ br_successfulServer r
       = if Spec.externalProduced
              [ICE.mkCandidate EmptyString (Some ICE.srflx)
                 (Some "203.0.113.10") None (Some 40000);
               ICE.mkCandidate EmptyString (Some ICE.host)
                 (Some "192.168.1.5") None (Some 54321);
               ICE.mkCandidate EmptyString (Some ICE.srflx)
                 (Some "203.0.113.10") None (Some 40001)]
         then "STUN server (via ICE)"
         else "STUN (via ICE)".
Proof.
  apply (successful_server_label
           [Probe.IceCandidate
              (Some (ICE.mkCandidate EmptyString (Some ICE.srflx)
                       (Some "203.0.113.10") None (Some 40000)));
            Probe.IceCandidate
              (Some (ICE.mkCandidate EmptyString (Some ICE.host)
                       (Some "192.168.1.5") None (Some 54321)));
            Probe.IceCandidate
              (Some (ICE.mkCandidate EmptyString (Some ICE.srflx)
                       (Some "203.0.113.10") None (Some 40001)));
            Probe.WaitElapsed]
           [ICE.mkCandidate EmptyString (Some ICE.srflx)
              (Some "203.0.113.10") None (Some 40000);
            ICE.mkCandidate EmptyString (Some ICE.host)
              (Some "192.168.1.5") None (Some 54321);
            ICE.mkCandidate EmptyString (Some ICE.srflx)
              (Some "203.0.113.10") None (Some 40001)]
           Probe.WaitElapsed); reflexivity.
Defined.

Lemma find_first (f : RTCIceCandidate -> bool) (l extra : list RTCIceCandidate) :
  existsb f l = true -> List.find f (l ++ extra) = List.find f l.
Proof.
  induction l as [|x l IH]; [discriminate |].
  cbn [existsb app List.find]. destruct (f x); [reflexivity | exact IH].
Qed.

(** X25.  The address record is read from the first host candidate and
    the first server-reflexive candidate: once one of each is on record,
    candidates that arrive later, of whatever type and with whatever
    addresses, leave the local address, the public address and port and
    both NAT flags as they are. *)
Theorem address_record_from_first_candidates
    (seen later : list RTCIceCandidate) :
  Spec.hostProduced seen = true ->
  Spec.externalProduced seen = true ->
  extractIPInfo (seen ++ later) = extractIPInfo seen.
Proof.
  intros Hhost Hext. unfold extractIPInfo.
  rewrite !find_first by assumption. reflexivity.
Qed.

(** A second mapping with another public address does not change the
    record. *)
Lemma address_record_from_first_candidates_witness :
  extractIPInfo
    ([ICE.mkCandidate EmptyString (Some ICE.host) (Some "192.168.1.5") None
        (Some 54321);
      ICE.mkCandidate EmptyString (Some ICE.srflx) (Some "203.0.113.10") None
        (Some 40000)]
     ++ [ICE.mkCandidate EmptyString (Some ICE.srflx) (Some "100.64.0.1") None
           (Some 40001)])
  = extractIPInfo
      [ICE.mkCandidate EmptyString (Some ICE.host) (Some "192.168.1.5") None
         (Some 54321);
       ICE.mkCandidate EmptyString (Some ICE.srflx) (Some "203.0.113.10") None
         (Some 40000)].
Proof. apply address_record_from_first_candidates; reflexivity. Defined.
